(** * dev-project-analyzer: the analysis pipeline of [analyzer.py]

    A shallow embedding of [ProjectAnalyzer] (analyzer.py) and of the
    constants it reads from config.py, with the properties of the
    pipeline stated and proved over it.

    Conventions of the embedding.
    - A Python [str] is a list of Unicode code points ([list N]).
    - A Python [int] is a [Z]; a Python [float] is the rational it
      denotes ([Q]).  The comment ratio, which the source compares with
      the float 0.1 and prints, is rounded to the nearest IEEE binary64
      number as the float division and product do ([binary64]); the sums
      and means of the aggregation and the cosine similarities are the
      real-number ones.
    - A path is the string the source builds: [os.path.join] for the
      directories of [os.walk], [str(Path(root) / filename)] for a file.
    - [None] results and raised exceptions are [option] values; the
      [try]/[except] blocks of the source are the matches on them.
    - Everything the source obtains from the operating system or from a
      third-party package (file contents, libmagic, chardet, radon,
      scikit-learn, regular-expression scans that no property depends on)
      is a field of the record [Env.t]; every theorem holds for all
      environments.
    - The two instance caches are finite maps keyed by [str(path)];
      [ThreadPoolExecutor.map] returns its results in input order and is
      embedded as the sequential map over the input list. *)

From Stdlib Require Import ZArith QArith Qround String Ascii DecimalString List Lia.
From stdpp Require Import gmap list strings.

Local Open Scope Z_scope.

(** ** Python strings *)

Module Text.

Definition char := N.
Definition str := list N.

(** A string literal of the source. *)
Definition lit (s : string) : str := map N_of_ascii (list_ascii_of_string s).

Definition str_eqb (a b : str) : bool := bool_decide (a = b).

(** [x in xs] for a set or tuple of strings. *)
Definition mem (x : str) (xs : list str) : bool := existsb (str_eqb x) xs.

(** [s.startswith(p)] *)
Fixpoint startswith (s p : str) : bool :=
  match p, s with
  | [], _ => true
  | _ :: _, [] => false
  | a :: p', b :: s' => N.eqb a b && startswith s' p'
  end.

(** [p in s] for strings: [p] occurs in [s] as a substring. *)
Fixpoint contains (p s : str) : bool :=
  startswith s p ||
  match s with
  | [] => false
  | _ :: s' => contains p s'
  end.

(** [str.isspace] on one code point (the characters [str.strip()] removes). *)
Definition isspace (c : char) : bool :=
  ((9 <=? c) && (c <=? 13) || (28 <=? c) && (c <=? 32)
   || (c =? 133) || (c =? 160) || (c =? 5760)
   || (8192 <=? c) && (c <=? 8202)
   || (c =? 8232) || (c =? 8233) || (c =? 8239) || (c =? 8287)
   || (c =? 12288))%N.

Fixpoint lstrip (s : str) : str :=
  match s with
  | [] => []
  | c :: s' => if isspace c then lstrip s' else s
  end.

Definition rstrip (s : str) : str := rev (lstrip (rev s)).

(** [s.strip()] *)
Definition strip (s : str) : str := rstrip (lstrip s).

(** The line boundaries of [str.splitlines]. *)
Definition is_linebreak (c : char) : bool :=
  ((10 <=? c) && (c <=? 13) || (28 <=? c) && (c <=? 30)
   || (c =? 133) || (c =? 8232) || (c =? 8233))%N.

(** [s.splitlines()]: [cur] is the line being read, in reverse.  A line is
    closed by a boundary ("\r\n" counts as one); text after the last
    boundary is a line only when it is not empty. *)
Fixpoint splitlines_from (cur s : str) : list str :=
  match s with
  | [] => match cur with [] => [] | _ :: _ => [rev cur] end
  | c :: t =>
      if is_linebreak c then
        rev cur ::
        match t with
        | c' :: t' =>
            if (c =? 13)%N && (c' =? 10)%N then splitlines_from [] t'
            else splitlines_from [] t
        | [] => splitlines_from [] t
        end
      else splitlines_from (c :: cur) t
  end.

Definition splitlines (s : str) : list str := splitlines_from [] s.

(** [s.split(sep)] for a one-character separator. *)
Fixpoint split_from (sep : char) (cur s : str) : list str :=
  match s with
  | [] => [rev cur]
  | c :: t =>
      if (c =? sep)%N then rev cur :: split_from sep [] t
      else split_from sep (c :: cur) t
  end.

Definition split (sep : char) (s : str) : list str := split_from sep [] s.

(** [str(n)] and [f"{n}"] for an integer. *)
Definition str_of_int (n : Z) : str := lit (NilZero.string_of_int (Z.to_int n)).

(** The integer nearest to [q], the even one of two at the same distance. *)
Definition round_half_even (q : Q) : Z :=
  let f := Qfloor q in
  let r := (q - inject_Z f)%Q in
  match (r ?= 1 # 2)%Q with
  | Lt => f
  | Gt => f + 1
  | Eq => if Z.even f then f else f + 1
  end.

(** Python floats are IEEE binary64 numbers.  A float is represented by
    the rational it denotes; [binary64 q] is the float nearest to [q]
    (ties to the even significand), which is what a correctly rounded
    operation returns: [pow2 e] is the weight of the last place, at least
    the one of the subnormal numbers. *)
Definition pow2 (e : Z) : Q :=
  if 0 <=? e then inject_Z (2 ^ e) else 1 # Z.to_pos (2 ^ (- e)).

(** The integer part of the binary logarithm of [n / d]. *)
Definition log2_floor (n d : positive) : Z :=
  let l := Z.log2 (Zpos n) - Z.log2 (Zpos d) in
  if 0 <=? l
  then (if Zpos d * 2 ^ l <=? Zpos n then l else l - 1)
  else (if Zpos d <=? Zpos n * 2 ^ (- l) then l else l - 1).

Definition binary64_pos (n d : positive) : Q :=
  let e := Z.max (log2_floor n d - 52) (-1074) in
  (inject_Z (round_half_even ((Zpos n # d) / pow2 e)) * pow2 e)%Q.

Definition binary64 (q : Q) : Q :=
  match Qnum q with
  | 0 => 0%Q
  | Zpos n => binary64_pos n (Qden q)
  | Zneg n => (- binary64_pos n (Qden q))%Q
  end.

Definition two_digits (n : Z) : str :=
  (if n <? 10 then lit "0" else []) ++ str_of_int n.

(** [f"{x:.2%}"] for a float [x]: the float product of [x] and 100,
    printed with two decimals (the decimal nearest to the exact value of
    that float, ties to even) and a percent sign. *)
Definition format_percent2 (x : Q) : str :=
  let r := round_half_even (binary64 (x * 100) * 100)%Q in
  let a := Z.abs r in
  (if r <? 0 then lit "-" else [])
    ++ str_of_int (a / 100) ++ lit "." ++ two_digits (a mod 100) ++ lit "%".

End Text.

Import Text.

(** ** config.py *)

Module Config.

(** [SUPPORTED_CODE_EXTENSIONS], in the insertion order of the dict. *)
Definition SUPPORTED_CODE_EXTENSIONS : list (str * list str) :=
  [ (lit "python", [lit ".py"; lit ".pyw"; lit ".pyx"; lit ".pxd"; lit ".pxi"]);
    (lit "javascript", [lit ".js"; lit ".jsx"; lit ".ts"; lit ".tsx"]);
    (lit "web", [lit ".html"; lit ".htm"; lit ".css"; lit ".scss"; lit ".sass"]);
    (lit "java", [lit ".java"; lit ".class"; lit ".jar"]);
    (lit "c_cpp", [lit ".c"; lit ".cpp"; lit ".h"; lit ".hpp"]);
    (lit "ruby", [lit ".rb"; lit ".rake"; lit ".gemspec"]);
    (lit "php", [lit ".php"; lit ".phtml"]);
    (lit "go", [lit ".go"]);
    (lit "rust", [lit ".rs"]) ].

Definition SIMILARITY_THRESHOLD : Q := 8 # 10.

(** [CODE_QUALITY_METRICS['loc']] and [CODE_QUALITY_METRICS['comment_ratio']] *)
Definition loc_max : Z := 500.
Definition loc_warning : Z := 300.
Definition comment_ratio_min : Q := binary64 (1 # 10).

End Config.

(** ** Data model *)

(** A value held in a field that the source sums or divides: a number, or
    an object of another type (on which [int + obj] raises [TypeError]). *)
Inductive pyvalue : Type :=
  | PyNum (q : Q)
  | PyObject.

(** What [stat], libmagic, chardet and the SHA-256 pass report for a file. *)
Record FileProbe : Type := {
  st_size : Z;
  st_ctime : Z;
  st_mtime : Z;
  magic_mime : str;
  chardet_encoding : option str;
  sha256_hexdigest : str
}.

Record FileMetadata : Type := {
  path : str;
  size : Z;
  created : Z;
  modified : Z;
  mime_type : str;
  encoding : str;
  category : str;
  is_binary : bool;
  hash : str
}.

Record CodeMetrics : Type := {
  loc : Z;
  sloc : Z;
  comments : Z;
  complexity : Z;
  maintainability : pyvalue;
  duplicates : list str;
  issues : list str;
  functions : list str;
  dependencies : list str
}.

(** The result of [radon.raw.analyze]. *)
Record RawMetrics : Type := {
  raw_loc : Z;
  raw_sloc : Z;
  raw_comments : Z
}.

(** One element of the list [_find_duplicates] returns. *)
Record DuplicatePair : Type := {
  file1 : str;
  file2 : str;
  similarity : Q
}.

(** ** The environment of a run *)

Module Env.

Record t : Type := {
  (** [str.lower] *)
  lower : str -> str;
  (** [stat], [magic.from_file], [chardet.detect] on the first chunk and
      the hash of one path; [None] when any of them raises. *)
  probe : str -> option FileProbe;
  (** [open(path, 'r', encoding=enc).read()]; [None] when it raises. *)
  read_text : str -> str -> option str;
  (** [radon.raw.analyze]; [None] when it raises. *)
  radon_analyze : str -> option RawMetrics;
  (** [radon.complexity.cc_visit]: name and complexity of every block. *)
  radon_cc_visit : str -> option (list (str * Z));
  (** [radon.metrics.h_visit] *)
  radon_h_visit : str -> option pyvalue;
  (** [_extract_dependencies content path] (it catches its own failures) *)
  extract_dependencies : str -> str -> list str;
  (** the [re.finditer] scan for function names of the JavaScript branch *)
  js_function_names : str -> list str;
  (** the two [re.findall] scans of the HTML branch, and of the CSS branch *)
  html_dependencies : str -> list str;
  css_dependencies : str -> list str;
  (** [TfidfVectorizer.fit_transform]: one row per document; [None] when
      it raises (an empty vocabulary, for instance). *)
  tfidf_fit_transform : list str -> option (list (list Q));
  (** the row normalisation inside [cosine_similarity] *)
  l2_normalize : list Q -> list Q
}.

End Env.

(** ** pathlib *)

Definition slash : char := 47%N.
Definition period : char := 46%N.

(** [Path.name]: the final component. *)
Definition path_name (p : str) : str := List.last (split slash p) [].

(** [s.rfind(c)], counting positions from [i]. *)
Fixpoint rfind_from (c : char) (i : nat) (s : str) : option nat :=
  match s with
  | [] => None
  | x :: t =>
      match rfind_from c (S i) t with
      | Some j => Some j
      | None => if (x =? c)%N then Some i else None
      end
  end.

(** [Path.suffix]: from the last dot of the name on, unless that dot is
    the first or the last character of the name. *)
Definition path_suffix (p : str) : str :=
  let name := path_name p in
  match rfind_from period 0 name with
  | Some i =>
      if (0 <? i)%nat && (i <? length name - 1)%nat then drop i name else []
  | None => []
  end.

(** ** Classification: [_categorize_file] *)

Definition doc_extensions : list str :=
  [lit ".md"; lit ".rst"; lit ".txt"; lit ".pdf"; lit ".doc"; lit ".docx"].

Definition config_patterns : list str :=
  [lit "requirements.txt"; lit "package.json"; lit "setup.py";
   lit ".gitignore"; lit "Dockerfile"; lit "docker-compose.yml"].

Definition config_extensions : list str :=
  [lit ".json"; lit ".yaml"; lit ".yml"; lit ".toml"; lit ".ini"].

(** The loop over [SUPPORTED_CODE_EXTENSIONS.items()]: the first language
    whose extension set holds [ext]. *)
Definition code_language (ext : str) : option str :=
  fst <$> List.find (fun le => mem ext (snd le)) Config.SUPPORTED_CODE_EXTENSIONS.

Definition is_doc (ext : str) : bool := mem ext doc_extensions.

Definition is_config (name ext : str) : bool :=
  mem name config_patterns || mem ext config_extensions.

Definition is_test (name : str) : bool :=
  contains (lit "test") name || contains (lit "spec") name.

Definition _categorize_file (env : Env.t) (filepath : str) : str :=
  let ext := Env.lower env (path_suffix filepath) in
  let name := Env.lower env (path_name filepath) in
  match code_language ext with
  | Some lang => lit "code/" ++ lang
  | None =>
      if is_doc ext then lit "documentation"
      else if is_config name ext then lit "configuration"
      else if is_test name then lit "test"
      else lit "other"
  end.

(** ** Metric engine: [_get_code_metrics] *)

(** The comment scan of the JavaScript/TypeScript branch: one step of the
    loop over the lines, on the pair [(in_multiline, comments)]. *)
Definition js_comment_step (st : bool * Z) (line : str) : bool * Z :=
  let '(in_multiline, comments) := st in
  let line := strip line in
  if startswith line (lit "//") then (in_multiline, comments + 1)
  else if contains (lit "/*") line && contains (lit "*/") line
       then (in_multiline, comments + 1)
  else if contains (lit "/*") line then (true, comments + 1)
  else if contains (lit "*/") line then (false, comments + 1)
  else if in_multiline then (in_multiline, comments + 1)
  else (in_multiline, comments).

Definition js_comments (content : str) : Z :=
  snd (fold_left js_comment_step (splitlines content) (false, 0)).

(** [len(re.findall(OPEN [\s\S]*? CLOSE, content))]: the non-overlapping
    spans that start at an opener and end at the first closer after it.
    [inside] tells whether an opener is pending, [skip] how many characters
    of the marker just matched remain to be passed. *)
Fixpoint count_spans (op cl : str) (inside : bool) (skip : nat) (s : str) : nat :=
  match s with
  | [] => 0
  | _ :: t =>
      match skip with
      | S k => count_spans op cl inside k t
      | O =>
          if inside then
            if startswith s cl
            then S (count_spans op cl false (length cl - 1) t)
            else count_spans op cl true 0 t
          else
            if startswith s op
            then count_spans op cl true (length op - 1) t
            else count_spans op cl false 0 t
      end
  end.

Definition html_comments (content : str) : Z :=
  Z.of_nat (count_spans (lit "<!--") (lit "-->") false 0 content).

Definition css_comments (content : str) : Z :=
  Z.of_nat (count_spans (lit "/*") (lit "*/") false 0 content).

Definition Qlt_bool (a b : Q) : bool := negb (Qle_bool b a).

(** [comments / sloc], the float nearest to the quotient of the two
    integers, or [0] when [sloc] is not positive. *)
Definition comment_ratio (sloc comments : Z) : Q :=
  if 0 <? sloc then binary64 (inject_Z comments / inject_Z sloc) else 0%Q.

(** The three f-strings of the issue checks. *)
Definition too_long_msg (sloc : Z) : str :=
  lit "File too long: " ++ str_of_int sloc ++ lit " lines".

Definition approaching_msg (sloc : Z) : str :=
  lit "Warning: File approaching maximum length: " ++ str_of_int sloc ++ lit " lines".

Definition low_ratio_msg (r : Q) : str :=
  lit "Low comment ratio: " ++ format_percent2 r.

(** The [if]/[elif] on the length of the file. *)
Definition length_issues (sloc : Z) : list str :=
  if Config.loc_max <? sloc then [too_long_msg sloc]
  else if Config.loc_warning <? sloc then [approaching_msg sloc]
  else [].

(** The [if] on the comment ratio. *)
Definition ratio_issues (sloc comments : Z) : list str :=
  let r := comment_ratio sloc comments in
  if Qlt_bool r Config.comment_ratio_min then [low_ratio_msg r] else [].

Definition quality_issues (sloc comments : Z) : list str :=
  length_issues sloc ++ ratio_issues sloc comments.

(** The strategies of the source, selected by the lower-cased suffix. *)
Inductive strategy : Type := Python | JavaScript | HTML | CSS | Generic.

Definition strategy_of (ext : str) : strategy :=
  if mem ext [lit ".py"; lit ".pyw"] then Python
  else if mem ext [lit ".js"; lit ".jsx"; lit ".ts"; lit ".tsx"] then JavaScript
  else if mem ext [lit ".html"; lit ".htm"] then HTML
  else if mem ext [lit ".css"; lit ".scss"; lit ".sass"] then CSS
  else Generic.

(** The local variables of [_get_code_metrics] before the issue checks. *)
Record Measures : Type := {
  v_loc : Z;
  v_sloc : Z;
  v_comments : Z;
  v_complexity : Z;
  v_maintainability : pyvalue;
  v_functions : list str;
  v_dependencies : list str
}.

Definition nonblank (line : str) : bool :=
  match strip line with [] => false | _ :: _ => true end.

(** The defaults every strategy starts from. *)
Definition generic_measures (content : str) : Measures :=
  {| v_loc := Z.of_nat (length (splitlines content));
     v_sloc := Z.of_nat (length (List.filter nonblank (splitlines content)));
     v_comments := 0;
     v_complexity := 0;
     v_maintainability := PyNum 100;
     v_functions := [];
     v_dependencies := [] |}.

(** The Python branch.  [analyze] may raise, which leaves the function
    through its outer handler; the inner [try] keeps what was assigned
    before [cc_visit] or [h_visit] raised. *)
Definition python_measures (env : Env.t) (fpath content : str) : option Measures :=
  match Env.radon_analyze env content with
  | None => None
  | Some raw =>
      let '(cx, fns, mi) :=
        match Env.radon_cc_visit env content with
        | None => (0, [], PyNum 100)
        | Some items =>
            (fold_left (fun c item => Z.max c (snd item)) items 0,
             map fst items,
             match Env.radon_h_visit env content with
             | None => PyNum 100
             | Some v => v
             end)
        end in
      Some {| v_loc := raw_loc raw;
              v_sloc := raw_sloc raw;
              v_comments := raw_comments raw;
              v_complexity := cx;
              v_maintainability := mi;
              v_functions := fns;
              v_dependencies := Env.extract_dependencies env content fpath |}
  end.

Definition measures (env : Env.t) (fpath content : str) : option Measures :=
  let g := generic_measures content in
  match strategy_of (Env.lower env (path_suffix fpath)) with
  | Python => python_measures env fpath content
  | JavaScript =>
      Some {| v_loc := v_loc g; v_sloc := v_sloc g;
              v_comments := js_comments content;
              v_complexity := 0; v_maintainability := PyNum 100;
              v_functions := Env.js_function_names env content;
              v_dependencies := Env.extract_dependencies env content fpath |}
  | HTML =>
      Some {| v_loc := v_loc g; v_sloc := v_sloc g;
              v_comments := html_comments content;
              v_complexity := 0; v_maintainability := PyNum 100;
              v_functions := [];
              v_dependencies := Env.html_dependencies env content |}
  | CSS =>
      Some {| v_loc := v_loc g; v_sloc := v_sloc g;
              v_comments := css_comments content;
              v_complexity := 0; v_maintainability := PyNum 100;
              v_functions := [];
              v_dependencies := Env.css_dependencies env content |}
  | Generic => Some g
  end.

(** The [CodeMetrics(...)] constructor call at the end of the function. *)
Definition make_metrics (v : Measures) : CodeMetrics :=
  {| loc := v_loc v;
     sloc := v_sloc v;
     comments := v_comments v;
     complexity := v_complexity v;
     maintainability := v_maintainability v;
     duplicates := [];
     issues := quality_issues (v_sloc v) (v_comments v);
     functions := v_functions v;
     dependencies := v_dependencies v |}.

(** The instance state: [file_cache] and [code_cache], keyed by the path. *)
Record Analyzer : Type := {
  file_cache : gmap str FileMetadata;
  code_cache : gmap str CodeMetrics
}.

(** [ProjectAnalyzer.__init__] *)
Definition init : Analyzer := {| file_cache := ∅; code_cache := ∅ |}.

Definition _get_code_metrics (env : Env.t) (st : Analyzer) (fm : FileMetadata)
  : option CodeMetrics * Analyzer :=
  match code_cache st !! path fm with
  | Some m => (Some m, st)
  | None =>
      match Env.read_text env (path fm) (encoding fm) with
      | None => (None, st)
      | Some content =>
          match measures env (path fm) content with
          | None => (None, st)
          | Some v =>
              let m := make_metrics v in
              (Some m, {| file_cache := file_cache st;
                          code_cache := <[path fm := m]> (code_cache st) |})
          end
      end
  end.

(** ** Similarity engine: [_find_duplicates] *)

(** The inner product of two rows. *)
Fixpoint dot (a b : list Q) : Q :=
  match a, b with
  | x :: a', y :: b' => (x * y + dot a' b')%Q
  | _, _ => 0%Q
  end.

(** [sklearn.metrics.pairwise.cosine_similarity]: the rows are normalised
    and multiplied with each other. *)
Definition cosine_similarity (env : Env.t) (vectors : list (list Q))
  : list (list Q) :=
  let rows := map (Env.l2_normalize env) vectors in
  map (fun a => map (fun b => dot a b) rows) rows.

(** [similarity_matrix[i][j]]; [None] is the [IndexError]. *)
Definition matrix_at (m : list (list Q)) (i j : nat) : option Q :=
  row ← m !! i; row !! j.

(** The pairs [(i, j)] the two [range] loops visit, in their order. *)
Definition index_pairs (n : nat) : list (nat * nat) :=
  flat_map (fun i => map (fun j => (i, j)) (seq (S i) (n - S i))) (seq 0 n).

(** The body of the two loops.  An exception ends the scan; the handler of
    [_find_duplicates] returns the pairs appended until then. *)
Fixpoint scan_pairs (files : list FileMetadata) (m : list (list Q))
    (ps : list (nat * nat)) : list DuplicatePair :=
  match ps with
  | [] => []
  | (i, j) :: rest =>
      match matrix_at m i j, files !! i, files !! j with
      | Some s, Some fi, Some fj =>
          if Qlt_bool Config.SIMILARITY_THRESHOLD s
          then {| file1 := path fi; file2 := path fj; similarity := s |}
                 :: scan_pairs files m rest
          else scan_pairs files m rest
      | _, _, _ => []
      end
  end.

(** The documents of a group: a file that cannot be read counts as "". *)
Definition read_contents (env : Env.t) (files : list FileMetadata) : list str :=
  map (fun f => default [] (Env.read_text env (path f) (encoding f))) files.

Definition _find_duplicates (env : Env.t) (files : list FileMetadata)
  : list DuplicatePair :=
  match read_contents env files with
  | [] => []
  | contents =>
      match Env.tfidf_fit_transform env contents with
      | None => []
      | Some vectors =>
          scan_pairs files (cosine_similarity env vectors)
                     (index_pairs (length files))
      end
  end.

(** ** Per-language metrics: [_analyze_code_files] *)

(** A Python dict with string keys, in insertion order. *)
Definition dict (V : Type) : Type := list (str * V).

(** [d[k] = v] *)
Fixpoint dict_set {V : Type} (k : str) (v : V) (d : dict V) : dict V :=
  match d with
  | [] => [(k, v)]
  | (k', v') :: r =>
      if str_eqb k' k then (k', v) :: r else (k', v') :: dict_set k v r
  end.

(** [d.setdefault(k, []).append(x)] *)
Fixpoint setdefault_append {A : Type} (k : str) (x : A) (d : dict (list A))
  : dict (list A) :=
  match d with
  | [] => [(k, [x])]
  | (k', xs) :: r =>
      if str_eqb k' k then (k', xs ++ [x]) :: r
      else (k', xs) :: setdefault_append k x r
  end.

(** The value stored under a language in the result of
    [_analyze_code_files]. *)
Module Lang.
Record t : Type := {
  files : Z;
  total_loc : Z;
  avg_complexity : Q;
  avg_maintainability : Q;
  duplicates : list DuplicatePair;
  issues : list str
}.
End Lang.

(** [sum(...)] over values that may not be numbers: the additions start
    from the integer 0 and raise on the first object that is no number. *)
Fixpoint sum_values (acc : Q) (vs : list pyvalue) : option Q :=
  match vs with
  | [] => Some acc
  | PyNum q :: r => sum_values (acc + q)%Q r
  | PyObject :: _ => None
  end.

Definition sum_Z (l : list Z) : Z := fold_left Z.add l 0.

Definition sum_Q (l : list Q) : Q := fold_left Qplus l 0%Q.

Definition _aggregate_issues (file_metrics : list CodeMetrics) : list str :=
  flat_map issues file_metrics.

(** [list(executor.map(self._get_code_metrics, files))] *)
Fixpoint map_code_metrics (env : Env.t) (st : Analyzer) (fs : list FileMetadata)
  : list (option CodeMetrics) * Analyzer :=
  match fs with
  | [] => ([], st)
  | f :: r =>
      let '(m, st1) := _get_code_metrics env st f in
      let '(ms, st2) := map_code_metrics env st1 r in
      (m :: ms, st2)
  end.

(** [[m for m in file_metrics if m]] *)
Definition valid_of (file_metrics : list (option CodeMetrics)) : list CodeMetrics :=
  omap id file_metrics.

(** The dict built for a language from the metrics and duplicates of its
    files; [None] when one of the sums raises. *)
Definition language_entry (nfiles : nat) (file_metrics : list (option CodeMetrics))
    (dups : list DuplicatePair) : option Lang.t :=
  let valid_metrics := valid_of file_metrics in
  match valid_metrics with
  | _ :: _ =>
      let n := inject_Z (Z.of_nat (length valid_metrics)) in
      mi ← sum_values 0%Q (map maintainability valid_metrics);
      Some {| Lang.files := Z.of_nat nfiles;
              Lang.total_loc := sum_Z (map loc valid_metrics);
              Lang.avg_complexity :=
                (inject_Z (sum_Z (map complexity valid_metrics)) / n)%Q;
              Lang.avg_maintainability := (mi / n)%Q;
              Lang.duplicates := dups;
              Lang.issues := _aggregate_issues valid_metrics |}
  | [] =>
      Some {| Lang.files := Z.of_nat nfiles;
              Lang.total_loc := 0;
              Lang.avg_complexity := 0%Q;
              Lang.avg_maintainability := 0%Q;
              Lang.duplicates := [];
              Lang.issues := [] |}
  end.

(** The body of the [try] for one language group. *)
Definition analyze_group (env : Env.t) (st : Analyzer) (files : list FileMetadata)
  : option Lang.t * Analyzer :=
  let '(file_metrics, st1) := map_code_metrics env st files in
  let dups := _find_duplicates env files in
  (language_entry (length files) file_metrics dups, st1).

(** [file.category.split('/')[1]]; [None] is the [IndexError]. *)
Definition language_of (f : FileMetadata) : option str :=
  split slash (category f) !! 1%nat.

(** The grouping loop. *)
Fixpoint group_by_language (code_files : list FileMetadata)
    (by_language : dict (list FileMetadata)) : option (dict (list FileMetadata)) :=
  match code_files with
  | [] => Some by_language
  | f :: r =>
      lang ← language_of f;
      group_by_language r (setdefault_append lang f by_language)
  end.

(** The loop over the groups: a group whose body raises is logged and
    skipped by [continue]. *)
Fixpoint analyze_groups (env : Env.t) (st : Analyzer)
    (groups : dict (list FileMetadata)) (metrics : dict Lang.t)
  : dict Lang.t * Analyzer :=
  match groups with
  | [] => (metrics, st)
  | (lang, files) :: r =>
      let '(e, st1) := analyze_group env st files in
      match e with
      | Some entry => analyze_groups env st1 r (dict_set lang entry metrics)
      | None => analyze_groups env st1 r metrics
      end
  end.

Definition _analyze_code_files (env : Env.t) (st : Analyzer)
    (code_files : list FileMetadata) : option (dict Lang.t * Analyzer) :=
  by_language ← group_by_language code_files [];
  Some (analyze_groups env st by_language []).

(** ** Discovery and metadata extraction *)

(** A directory as [os.walk] reports it: the sub-directories and the file
    names with the size [stat] gives ([None] when [stat] raises). *)
#[warnings="-register-all"]
Inductive Dir : Type :=
  | MkDir (subdirs : list (str * Dir)) (filenames : list (str * option Z)).

Definition MAX_FILE_SIZE : Z := 10 * 1024 * 1024.

(** [os.path.join(a, b)], with which [os.walk] names a sub-directory. *)
Definition os_path_join (a b : str) : str :=
  if startswith b (lit "/") then b
  else if match a with
          | [] => true
          | _ :: _ => (List.last a 0 =? slash)%N
          end
       then a ++ b
       else a ++ lit "/" ++ b.

(** A [pathlib] path of a POSIX system: the anchor is "", "/" or "//". *)
Record PosixPath : Type := {
  anchor : str;
  parts : list str
}.

Fixpoint count_leading (c : char) (s : str) : nat :=
  match s with
  | x :: t => if (x =? c)%N then S (count_leading c t) else O
  | [] => O
  end.

(** [Path(s)]: exactly two leading slashes are kept, any other number of
    them is one; empty components and "." are dropped. *)
Definition parse_path (s : str) : PosixPath :=
  {| anchor :=
       match count_leading slash s with
       | O => []
       | 2%nat => lit "//"
       | _ => lit "/"
       end;
     parts :=
       List.filter (fun x => negb (str_eqb x []) && negb (str_eqb x (lit ".")))
                   (split slash s) |}.

(** [str(p)] *)
Definition path_str (p : PosixPath) : str :=
  match parts p with
  | [] => match anchor p with [] => lit "." | _ :: _ => anchor p end
  | x :: r => anchor p ++ fold_left (fun acc y => acc ++ lit "/" ++ y) r x
  end.

(** [p / s]: an absolute [s] replaces [p]. *)
Definition path_div (p : PosixPath) (s : str) : PosixPath :=
  let q := parse_path s in
  match anchor q with
  | [] => {| anchor := anchor p; parts := parts p ++ parts q |}
  | _ :: _ => q
  end.

(** [str(Path(root) / name)] *)
Definition joinpath (root name : str) : str :=
  path_str (path_div (parse_path root) name).

(** The loop over the file names of one directory. *)
Fixpoint collect_here (root : str) (filenames : list (str * option Z))
  : option (list str) :=
  match filenames with
  | [] => Some []
  | (name, sz) :: r =>
      if startswith name (lit ".") then collect_here root r
      else
        match sz with
        | None => None
        | Some n =>
            rest ← collect_here root r;
            Some (if MAX_FILE_SIZE <? n then rest else joinpath root name :: rest)
        end
  end.

(** [_collect_files]: top-down, hidden directories pruned. *)
Fixpoint _collect_files (root : str) (d : Dir) : option (list str) :=
  match d with
  | MkDir subdirs filenames =>
      here ← collect_here root filenames;
      below ← (fix walk (ds : list (str * Dir)) : option (list str) :=
                 match ds with
                 | [] => Some []
                 | (name, sub) :: r =>
                     if startswith name (lit ".") then walk r
                     else
                       a ← _collect_files (os_path_join root name) sub;
                       b ← walk r;
                       Some (a ++ b)
                 end) subdirs;
      Some (here ++ below)
  end.

(** [_analyze_file]: [None] for a file whose extraction raises. *)
Definition _analyze_file (env : Env.t) (st : Analyzer) (filepath : str)
  : option FileMetadata * Analyzer :=
  match Env.probe env filepath with
  | None => (None, st)
  | Some p =>
      let text := startswith (magic_mime p) (lit "text/") in
      let metadata :=
        {| path := filepath;
           size := st_size p;
           created := st_ctime p;
           modified := st_mtime p;
           mime_type := magic_mime p;
           encoding :=
             if text then
               match chardet_encoding p with
               | Some (c :: e) => c :: e
               | _ => lit "utf-8"
               end
             else lit "binary";
           category := _categorize_file env filepath;
           is_binary := negb text;
           hash := sha256_hexdigest p |} in
      (Some metadata,
       {| file_cache := <[filepath := metadata]> (file_cache st);
          code_cache := code_cache st |})
  end.

(** [list(executor.map(self._analyze_file, files))] *)
Fixpoint map_analyze_file (env : Env.t) (st : Analyzer) (files : list str)
  : list (option FileMetadata) * Analyzer :=
  match files with
  | [] => ([], st)
  | f :: r =>
      let '(m, st1) := _analyze_file env st f in
      let '(ms, st2) := map_analyze_file env st1 r in
      (m :: ms, st2)
  end.

(** ** Aggregation *)

Fixpoint dict_get {V : Type} (k : str) (d : dict V) : option V :=
  match d with
  | [] => None
  | (k', v) :: r => if str_eqb k' k then Some v else dict_get k r
  end.

Record FileRow : Type := {
  row_path : str;
  row_size : Z;
  row_modified : Z;
  row_mime_type : str
}.

(** The value stored under a category by [_categorize_files]. *)
Module Cat.
Record t : Type := {
  count : Z;
  total_size : Z;
  files : list FileRow
}.
End Cat.

Definition categorize_step (categories : dict Cat.t) (file : option FileMetadata)
  : dict Cat.t :=
  match file with
  | None => categories
  | Some f =>
      let c := default {| Cat.count := 0; Cat.total_size := 0; Cat.files := [] |}
                       (dict_get (category f) categories) in
      dict_set (category f)
        {| Cat.count := Cat.count c + 1;
           Cat.total_size := Cat.total_size c + size f;
           Cat.files := Cat.files c ++
             [{| row_path := path f; row_size := size f;
                 row_modified := modified f; row_mime_type := mime_type f |}] |}
        categories
  end.

Definition _categorize_files (files : list (option FileMetadata)) : dict Cat.t :=
  fold_left categorize_step files [].

Module Stats.
Record t : Type := {
  total_loc : Z;
  avg_complexity : Q;
  avg_maintainability : Q;
  total_issues : Z
}.
End Stats.

Module Summary.
Record t : Type := {
  total_files : Z;
  total_size : Z;
  languages : gset str;
  code_stats : Stats.t;
  categories : dict Z
}.
End Summary.

(** One turn of the loop over [code_metrics.items()], on the running
    totals and the set of languages ([languages.add(lang)]).  The summary
    gives [list(languages)], the elements of the set in an order the
    source does not determine: the field holds the set. *)
Definition summary_step (acc : Stats.t * gset str) (kv : str * Lang.t)
  : Stats.t * gset str :=
  let '(a, languages) := acc in
  ({| Stats.total_loc := Stats.total_loc a + Lang.total_loc (snd kv);
      Stats.avg_complexity :=
        (Stats.avg_complexity a + Lang.avg_complexity (snd kv))%Q;
      Stats.avg_maintainability :=
        (Stats.avg_maintainability a + Lang.avg_maintainability (snd kv))%Q;
      Stats.total_issues :=
        Stats.total_issues a + Z.of_nat (length (Lang.issues (snd kv))) |},
   {[ fst kv ]} ∪ languages).

Definition _generate_project_summary (categorized_files : dict Cat.t)
    (code_metrics : dict Lang.t) : Summary.t :=
  let '(a, languages) :=
    fold_left summary_step code_metrics
      ({| Stats.total_loc := 0; Stats.avg_complexity := 0%Q;
          Stats.avg_maintainability := 0%Q; Stats.total_issues := 0 |}, ∅) in
  let num_languages := Z.of_nat (base.size languages) in
  {| Summary.total_files := sum_Z (map (fun kv => Cat.count (snd kv)) categorized_files);
     Summary.total_size := sum_Z (map (fun kv => Cat.total_size (snd kv)) categorized_files);
     Summary.languages := languages;
     Summary.code_stats :=
       if 0 <? num_languages
       then {| Stats.total_loc := Stats.total_loc a;
               Stats.avg_complexity :=
                 (Stats.avg_complexity a / inject_Z num_languages)%Q;
               Stats.avg_maintainability :=
                 (Stats.avg_maintainability a / inject_Z num_languages)%Q;
               Stats.total_issues := Stats.total_issues a |}
       else a;
     Summary.categories := map (fun kv => (fst kv, Cat.count (snd kv))) categorized_files |}.

(** ** The orchestrator: [analyze_project] *)

(** What [analyze_project] returns (the timestamp left out). *)
Record Report : Type := {
  summary : Summary.t;
  files : dict Cat.t;
  metrics : dict Lang.t
}.

(** [[f for f in file_metadata if f.category.startswith('code/')]]: reading
    [.category] of a [None] element raises [AttributeError]. *)
Fixpoint code_files_of (file_metadata : list (option FileMetadata))
  : option (list FileMetadata) :=
  match file_metadata with
  | [] => Some []
  | None :: _ => None
  | Some f :: r =>
      rest ← code_files_of r;
      Some (if startswith (category f) (lit "code/") then f :: rest else rest)
  end.

(** [analyze_project]: [None] when the run ends in the outer handler, which
    logs the exception and raises it again. *)
Definition analyze_project (env : Env.t) (st : Analyzer) (root : str) (tree : Dir)
  : option Report * Analyzer :=
  match _collect_files root tree with
  | None => (None, st)
  | Some discovered =>
      let '(file_metadata, st1) := map_analyze_file env st discovered in
      let categorized_files := _categorize_files file_metadata in
      match code_files_of file_metadata with
      | None => (None, st1)
      | Some code_files =>
          match _analyze_code_files env st1 code_files with
          | None => (None, st1)
          | Some (code_metrics, st2) =>
              (Some {| summary := _generate_project_summary categorized_files code_metrics;
                       files := categorized_files;
                       metrics := code_metrics |}, st2)
          end
      end
  end.

(** ** A small concrete environment

    Used to run the pipeline on explicit inputs: a file system given as a
    list of paths with their text, ASCII lower-casing, and a two-component
    vectoriser whose rows tell whether a document mentions "alpha" and
    whether it mentions "beta". *)

Module Demo.

Definition ascii_lower (s : str) : str :=
  map (fun c => if (65 <=? c) && (c <=? 90) then c + 32 else c)%N s.

Definition lookup_file (fs : list (str * str)) (p : str) : option str :=
  snd <$> List.find (fun kv => str_eqb (fst kv) p) fs.

Definition toy_row (doc : str) : list Q :=
  [if contains (lit "alpha") doc then 1%Q else 0%Q;
   if contains (lit "beta") doc then 1%Q else 0%Q].

(** A stand-in for radon: comment lines are those starting with "#",
    source lines the other non-blank ones; no block is reported, and the
    Halstead visitor returns its report object. *)
Definition hash_comment (line : str) : bool := startswith (strip line) (lit "#").

Definition count_lines (content : str) : option RawMetrics :=
  let lines := splitlines content in
  Some {| raw_loc := Z.of_nat (length lines);
          raw_sloc := Z.of_nat (length (List.filter
                        (fun l => nonblank l && negb (hash_comment l)) lines));
          raw_comments := Z.of_nat (length (List.filter hash_comment lines)) |}.

Definition env_with (analyze : str -> option RawMetrics)
    (cc_visit : str -> option (list (str * Z)))
    (h_visit : str -> option pyvalue) (fs : list (str * str)) : Env.t :=
  {| Env.lower := ascii_lower;
     Env.probe := fun p =>
       match lookup_file fs p with
       | Some text =>
           Some {| st_size := Z.of_nat (length text); st_ctime := 0; st_mtime := 0;
                   magic_mime := lit "text/plain";
                   chardet_encoding := Some (lit "ascii");
                   sha256_hexdigest := [] |}
       | None => None
       end;
     Env.read_text := fun p _ => lookup_file fs p;
     Env.radon_analyze := analyze;
     Env.radon_cc_visit := cc_visit;
     Env.radon_h_visit := h_visit;
     Env.extract_dependencies := fun _ _ => [];
     Env.js_function_names := fun _ => [];
     Env.html_dependencies := fun _ => [];
     Env.css_dependencies := fun _ => [];
     Env.tfidf_fit_transform := fun docs => Some (map toy_row docs);
     Env.l2_normalize := fun v => v |}.

(** No working radon. *)
Definition env (fs : list (str * str)) : Env.t :=
  env_with (fun _ => None) (fun _ => None) (fun _ => None) fs.

(** The radon stand-in. *)
Definition env_radon (fs : list (str * str)) : Env.t :=
  env_with count_lines (fun _ => Some []) (fun _ => Some PyObject) fs.

(** The metadata record of a text file at [p] in category [c]. *)
Definition file_at (p c : str) : FileMetadata :=
  {| path := p; size := 0; created := 0; modified := 0;
     mime_type := lit "text/plain"; encoding := lit "ascii";
     category := c; is_binary := false; hash := [] |}.

(** Ten lines: one comment, one blank, eight statements. *)
Definition ten_lines_one_comment : str := lit "// header
let a = 1;
let b = 2;
let c = 3;

let d = 4;
let e = 5;
let f = 6;
let g = 7;
let h = 8;
".

(** The same file with the comment turned into a statement. *)
Definition ten_lines_no_comment : str := lit "let z = 0;
let a = 1;
let b = 2;
let c = 3;

let d = 4;
let e = 5;
let f = 6;
let g = 7;
let h = 8;
".

(** Ten lines of Python: one comment and nine statements. *)
Definition ten_lines_python : str := lit "# header
a = 1
b = 2
c = 3
d = 4
e = 5
f = 6
g = 7
h = 8
i = 9
".



End Demo.

(** ** Vocabulary of the statements *)

(** Every record in the code cache has an empty [duplicates] list. *)
Definition cache_ok (st : Analyzer) : Prop :=
  forall k m, code_cache st !! k = Some m -> duplicates m = [].

(** The statement of C3 as it is written. *)
Definition counts_within_lines (m : CodeMetrics) : Prop :=
  sloc m <= loc m /\ comments m <= loc m.

(** The statement of C4 as it is written, for a run with one group: a
    group whose body raises still has an entry in the result. *)
Definition failed_group_has_entry : Prop :=
  forall env st lang fs,
    fst (analyze_group env st fs) = None ->
    is_Some (dict_get lang (fst (analyze_groups env st [(lang, fs)] []))).

(** The files of a group for which [_get_code_metrics] returned [None]. *)
Definition failed_count (file_metrics : list (option CodeMetrics)) : nat :=
  length (List.filter (fun r => match r with None => true | Some _ => false end)
                      file_metrics).




(** The row [_categorize_files] appends for a file. *)
Definition row_of (f : FileMetadata) : FileRow :=
  {| row_path := path f; row_size := size f;
     row_modified := modified f; row_mime_type := mime_type f |}.

Definition in_category (k : str) (f : FileMetadata) : bool :=
  str_eqb (category f) k.

(** The entry of a category holding the files [g], in their order. *)
Definition info_of (g : list FileMetadata) : Cat.t :=
  {| Cat.count := Z.of_nat (length g);
     Cat.total_size := sum_Z (map size g);
     Cat.files := map row_of g |}.

(** What the categorized view holds under the key [k] for the records
    [fs]: nothing when no record has this category. *)
Definition category_info (k : str) (fs : list FileMetadata) : option Cat.t :=
  match List.filter (in_category k) fs with
  | [] => None
  | f :: g => Some (info_of (f :: g))
  end.

(** The record [_analyze_file] builds for a path (the caches apart). *)
Definition metadata_of (env : Env.t) (p : str) : option FileMetadata :=
  fst (_analyze_file env init p).

(** A name the walk keeps: it does not start with a dot. *)
Definition visible (name : str) : Prop := startswith name (lit ".") = false.

(** [has_file d names sz]: following the directory names of [names] from
    [d] leads to a directory that lists the last name as a file, with
    [sz] the size [stat] reports for it. *)
Inductive has_file : Dir -> list str -> option Z -> Prop :=
  | has_file_here subdirs filenames name sz :
      In (name, sz) filenames ->
      has_file (MkDir subdirs filenames) [name] sz
  | has_file_below subdirs filenames name sub names sz :
      In (name, sub) subdirs ->
      has_file sub names sz ->
      has_file (MkDir subdirs filenames) (name :: names) sz.

(** The path [_collect_files] gives the file reached from [root] through
    [names]: [os.walk] joins the directory names to the root one by one
    with [os.path.join], and the loop body builds [Path(root) / filename]
    from the directory reached and the name of the file. *)
Fixpoint file_path (root : str) (names : list str) : str :=
  match names with
  | [] => root
  | name :: rest =>
      match rest with
      | [] => joinpath root name
      | _ :: _ => file_path (os_path_join root name) rest
      end
  end.

(** The loop of [_collect_files] over the sub-directories. *)
Definition collect_below (root : str) (subdirs : list (str * Dir))
  : option (list str) :=
  (fix walk (ds : list (str * Dir)) : option (list str) :=
     match ds with
     | [] => Some []
     | (name, sub) :: r =>
         if startswith name (lit ".") then walk r
         else
           a ← _collect_files (os_path_join root name) sub;
           b ← walk r;
           Some (a ++ b)
     end) subdirs.

(** What [_collect_files] computes on a directory, for every root: the
    paths it returns, and when it raises. *)
Definition collect_spec (d : Dir) : Prop :=
  forall root,
    (forall l, _collect_files root d = Some l ->
       forall p, In p l <->
         exists names sz,
           has_file d names (Some sz) /\ Forall visible names /\
           sz <= MAX_FILE_SIZE /\ p = file_path root names) /\
    (_collect_files root d = None <->
       exists names, has_file d names None /\ Forall visible names).

(** The files of a language among the code files. *)
Definition has_language (lang : str) (f : FileMetadata) : bool :=
  bool_decide (language_of f = Some lang).

(** ** config.py: [get_file_category] and [get_project_type] *)

Definition SUPPORTED_DOC_EXTENSIONS : list (str * list str) :=
  [ (lit "text", [lit ".txt"; lit ".md"; lit ".rst"; lit ".adoc"]);
    (lit "office", [lit ".doc"; lit ".docx"; lit ".xls"; lit ".xlsx";
                    lit ".ppt"; lit ".pptx"]);
    (lit "pdf", [lit ".pdf"]) ].

Definition SUPPORTED_CONFIG_EXTENSIONS : list (str * list str) :=
  [ (lit "data", [lit ".json"; lit ".yaml"; lit ".yml"; lit ".toml";
                  lit ".ini"; lit ".conf"]);
    (lit "lock", [lit ".lock"]);
    (lit "git", [lit ".gitignore"; lit ".gitmodules"; lit ".gitattributes"]);
    (lit "docker", [lit "Dockerfile"; lit ".dockerignore";
                    lit "docker-compose.yml"]);
    (lit "package", [lit "package.json"; lit "requirements.txt";
                     lit "Pipfile"; lit "setup.py"]) ].

(** [get_file_category]: the three loops in their order. *)
Definition get_file_category (env : Env.t) (filepath : str) : str :=
  let ext := Env.lower env (path_suffix filepath) in
  let name := Env.lower env (path_name filepath) in
  match List.find (fun le => mem ext (snd le)) Config.SUPPORTED_CODE_EXTENSIONS with
  | Some (lang, _) => lit "code/" ++ lang
  | None =>
      match List.find (fun de => mem ext (snd de)) SUPPORTED_DOC_EXTENSIONS with
      | Some (doc_type, _) => lit "doc/" ++ doc_type
      | None =>
          match List.find (fun ce => mem ext (snd ce) || mem name (snd ce))
                          SUPPORTED_CONFIG_EXTENSIONS with
          | Some (config_type, _) => lit "config/" ++ config_type
          | None => lit "unknown"
          end
      end
  end.

Definition PROJECT_MARKERS : list (str * list str) :=
  [ (lit "python", [lit "setup.py"; lit "pyproject.toml";
                    lit "requirements.txt"; lit "Pipfile"]);
    (lit "node", [lit "package.json"; lit "package-lock.json"; lit "yarn.lock"]);
    (lit "ruby", [lit "Gemfile"; lit "Rakefile"]);
    (lit "php", [lit "composer.json"]);
    (lit "java", [lit "pom.xml"; lit "build.gradle"]);
    (lit "go", [lit "go.mod"]);
    (lit "rust", [lit "Cargo.toml"]);
    (lit "generic", [lit ".git"; lit ".svn"; lit ".hg"]) ].

(** [markers & files] is not empty. *)
Definition has_marker (listing markers : list str) : bool :=
  existsb (fun m => mem m listing) markers.

(** [get_project_type], on the names [os.listdir] returns. *)
Definition get_project_type (listing : list str) : str :=
  match List.find (fun lm => has_marker listing (snd lm)) PROJECT_MARKERS with
  | Some (lang, _) => lang
  | None => lit "unknown"
  end.

(** ** main.py: the response of [/api/analyze] *)

(** A value of the dict [analyze_project] returns. *)
Inductive ResultValue : Type :=
  | RSummary (s : Summary.t)
  | RFiles (d : dict Cat.t)
  | RMetrics (d : dict Lang.t)
  | RTimestamp (t : str).

(** The dict literal at the end of [analyze_project]. *)
Definition result_dict (r : Report) (timestamp : str) : dict ResultValue :=
  [ (lit "summary", RSummary (summary r));
    (lit "files", RFiles (files r));
    (lit "metrics", RMetrics (metrics r));
    (lit "timestamp", RTimestamp timestamp) ].

(** The ['summary'] part of [formatted_results]: a field read with
    [results.get(key, default)] holds the value under the key, or the
    default. *)
Record ApiSummary : Type := {
  api_total_files : ResultValue + Z;
  api_languages : ResultValue + list str;
  api_total_loc : Z;
  api_total_issues : Z;
  api_avg_complexity : Q;
  api_avg_maintainability : Q
}.

(** [results.get(key, default)] *)
Definition get_or {D : Type} (results : dict ResultValue) (key : str)
    (default : D) : ResultValue + D :=
  match dict_get key results with
  | Some v => inl v
  | None => inr default
  end.

(** The construction of [formatted_results] in [analyze]; [None] when the
    value under ['metrics'] is no dict and [.values()] raises. *)
Definition format_results (results : dict ResultValue) : option ApiSummary :=
  match get_or results (lit "metrics") ([] : dict Lang.t) with
  | inl (RMetrics d) | inr d =>
      let values := map snd d in
      let n := inject_Z (Z.of_nat (length d)) in
      Some {| api_total_files := get_or results (lit "total_files") 0;
              api_languages := get_or results (lit "languages") [];
              api_total_loc := sum_Z (map Lang.total_loc values);
              api_total_issues :=
                sum_Z (map (fun m => Z.of_nat (length (Lang.issues m))) values);
              api_avg_complexity :=
                match d with
                | [] => 0%Q
                | _ :: _ => (sum_Q (map Lang.avg_complexity values) / n)%Q
                end;
              api_avg_maintainability :=
                match d with
                | [] => 0%Q
                | _ :: _ => (sum_Q (map Lang.avg_maintainability values) / n)%Q
                end |}
  | inl _ => None
  end.

(** ** The rules of [_categorize_file], on the tables of the source *)

(** [p] occurs in [s]. *)
Definition substring (p s : str) : Prop := exists a b, s = a ++ p ++ b.

(** The suffix is in the bucket of [lang] in [SUPPORTED_CODE_EXTENSIONS]. *)
Definition code_rule (ext lang : str) : Prop :=
  exists exts, In (lang, exts) Config.SUPPORTED_CODE_EXTENSIONS /\ In ext exts.

Definition doc_rule (ext : str) : Prop := In ext doc_extensions.

Definition config_rule (name ext : str) : Prop :=
  In name config_patterns \/ In ext config_extensions.

Definition test_rule (name : str) : Prop :=
  substring (lit "test") name \/ substring (lit "spec") name.

(** ** Records and the text they are computed from *)

(** The strategy [_get_code_metrics] takes for a path. *)
Definition strategy_for (env : Env.t) (k : str) : strategy :=
  strategy_of (Env.lower env (path_suffix k)).

(** The numbers of lines and of non-blank lines of a text. *)
Definition line_count (content : str) : Z :=
  Z.of_nat (length (splitlines content)).

Definition nonblank_count (content : str) : Z :=
  Z.of_nat (length (List.filter nonblank (splitlines content))).

(** [m] is the record computed from a text read at the path [k]. *)
Definition produced (env : Env.t) (k : str) (m : CodeMetrics) : Prop :=
  exists enc content v,
    Env.read_text env k enc = Some content /\
    measures env k content = Some v /\
    m = make_metrics v.

(** Every record of the code cache was computed from a text read at its
    key: the state of the cache all along a run that starts with the
    empty cache. *)
Definition cache_sound (env : Env.t) (st : Analyzer) : Prop :=
  forall k m, code_cache st !! k = Some m -> produced env k m.

(** The counts [radon.raw.analyze] reports are within the number of
    lines it reports. *)
Definition radon_consistent (env : Env.t) : Prop :=
  forall content raw,
    Env.radon_analyze env content = Some raw ->
    0 <= raw_sloc raw <= raw_loc raw /\ 0 <= raw_comments raw <= raw_loc raw.

(** The statement of C2 as it is written: the ratio of every record is
    the quotient of its comments by the non-blank lines of the text. *)
Definition ratio_over_nonblank : Prop :=
  forall env fm m content,
    fst (_get_code_metrics env init fm) = Some m ->
    Env.read_text env (path fm) (encoding fm) = Some content ->
    comment_ratio (sloc m) (comments m) =
    comment_ratio (nonblank_count content) (comments m).


(** * Properties *)

(** ** Records of the cache *)

Lemma cache_sound_init env : cache_sound env init.
Proof. intros k m H. simpl in H. by rewrite lookup_empty in H. Qed.

Lemma get_code_metrics_sound env st fm :
  cache_sound env st ->
  cache_sound env (snd (_get_code_metrics env st fm)) /\
  forall m, fst (_get_code_metrics env st fm) = Some m ->
            produced env (path fm) m.
Proof.
  intros Hst. unfold _get_code_metrics.
  destruct (code_cache st !! path fm) as [m0 |] eqn:Hc; simpl.
  - split; [assumption |]. intros m [= <-]. eapply Hst, Hc.
  - destruct (Env.read_text env (path fm) (encoding fm)) as [content |] eqn:Hr;
      simpl; [| split; [assumption | discriminate]].
    destruct (measures env (path fm) content) as [v |] eqn:Hv; simpl;
      [| split; [assumption | discriminate]].
    assert (Hp : produced env (path fm) (make_metrics v))
      by (exists (encoding fm), content, v; auto).
    split.
    + intros k m. simpl. intros H.
      apply lookup_insert_Some in H as [[<- <-] | [_ H]]; [exact Hp |].
      eapply Hst, H.
    + intros m [= <-]. exact Hp.
Qed.




(** What [measures] puts into [sloc]: the non-blank lines of the text,
    except for the Python strategy, which copies radon's count. *)
Lemma measures_sloc env k content v :
  measures env k content = Some v ->
  (strategy_for env k <> Python ->
     v_loc v = line_count content /\ v_sloc v = nonblank_count content) /\
  (strategy_for env k = Python ->
     exists raw, Env.radon_analyze env content = Some raw /\
       v_loc v = raw_loc raw /\ v_sloc v = raw_sloc raw /\
       v_comments v = raw_comments raw).
Proof.
  unfold measures, strategy_for. intros Hv.
  destruct (strategy_of (Env.lower env (path_suffix k))).
  - unfold python_measures in Hv.
    destruct (Env.radon_analyze env content) as [raw |]; [| discriminate].
    split; [congruence |]. intros _. exists raw.
    destruct (Env.radon_cc_visit env content); injection Hv as <-; auto.
  - injection Hv as <-. split; [by intros _ | discriminate].
  - injection Hv as <-. split; [by intros _ | discriminate].
  - injection Hv as <-. split; [by intros _ | discriminate].
  - injection Hv as <-. split; [by intros _ | discriminate].
Qed.


(** ** Issue checks *)

Lemma too_long_msg_head sloc : hd 0%N (too_long_msg sloc) = 70%N.
Proof. reflexivity. Qed.

Lemma approaching_msg_head sloc : hd 0%N (approaching_msg sloc) = 87%N.
Proof. reflexivity. Qed.

Lemma low_ratio_msg_head r : hd 0%N (low_ratio_msg r) = 76%N.
Proof. reflexivity. Qed.

Lemma length_issues_cases sloc :
  (500 < sloc /\ length_issues sloc = [too_long_msg sloc]) \/
  (300 < sloc <= 500 /\ length_issues sloc = [approaching_msg sloc]) \/
  (sloc <= 300 /\ length_issues sloc = []).
Proof.
  unfold length_issues, Config.loc_max, Config.loc_warning.
  destruct (Z.ltb_spec 500 sloc); [left; split; [lia | reflexivity] |].
  destruct (Z.ltb_spec 300 sloc); [right; left | right; right];
    (split; [lia | reflexivity]).
Qed.

Lemma ratio_issues_cases sloc comments :
  let r := comment_ratio sloc comments in
  ((r < Config.comment_ratio_min)%Q /\
   ratio_issues sloc comments = [low_ratio_msg r]) \/
  ((Config.comment_ratio_min <= r)%Q /\ ratio_issues sloc comments = []).
Proof.
  intros r. unfold ratio_issues, Qlt_bool. fold r.
  destruct (Qle_bool Config.comment_ratio_min r) eqn:E; simpl.
  - right. split; [by apply Qle_bool_iff | reflexivity].
  - left. split; [| reflexivity].
    apply Qnot_le_lt. intros H. apply Qle_bool_iff in H. congruence.
Qed.

Ltac head_clash H :=
  apply (f_equal (hd 0%N)) in H;
  rewrite ?too_long_msg_head, ?approaching_msg_head, ?low_ratio_msg_head in H;
  discriminate H.

Lemma issues_make_metrics v :
  issues (make_metrics v) =
  length_issues (v_sloc v) ++ ratio_issues (v_sloc v) (v_comments v).
Proof. reflexivity. Qed.



Lemma in_quality_low_ratio q s c :
  In (low_ratio_msg q) (quality_issues s c) ->
  (comment_ratio s c < Config.comment_ratio_min)%Q.
Proof.
  unfold quality_issues. intros H. apply in_app_or in H.
  destruct H as [H | H].
  - destruct (length_issues_cases s) as [[? E] | [[? E] | [? E]]];
      rewrite E in H; simpl in H; try tauto;
      destruct H as [H | []]; head_clash H.
  - destruct (ratio_issues_cases s c) as [[? E] | [? E]];
      rewrite E in H; simpl in H; tauto.
Qed.




(** ** Comment ratio *)

Lemma comment_ratio_pos sloc comments :
  0 < sloc ->
  comment_ratio sloc comments = binary64 (inject_Z comments / inject_Z sloc).
Proof.
  intros H. unfold comment_ratio.
  destruct (Z.ltb_spec 0 sloc); [reflexivity | lia].
Qed.

Lemma comment_ratio_nonpos sloc comments :
  sloc <= 0 -> comment_ratio sloc comments = 0%Q.
Proof.
  intros H. unfold comment_ratio.
  destruct (Z.ltb_spec 0 sloc); [lia | reflexivity].
Qed.

Lemma low_ratio_issue_iff s c :
  let r := comment_ratio s c in
  (In (low_ratio_msg r) (quality_issues s c)
   <-> (r < Config.comment_ratio_min)%Q) /\
  ((exists q, In (low_ratio_msg q) (quality_issues s c))
   <-> (r < Config.comment_ratio_min)%Q).
Proof.
  intros r.
  assert (Hback : (r < Config.comment_ratio_min)%Q ->
            In (low_ratio_msg r) (quality_issues s c)).
  { intros H. unfold quality_issues. apply in_or_app. right.
    destruct (ratio_issues_cases s c) as [[? E] | [? E]].
    - rewrite E. simpl. tauto.
    - exfalso. eapply Qlt_not_le; eassumption. }
  split; split.
  - apply in_quality_low_ratio.
  - exact Hback.
  - intros [q Hq]. eapply in_quality_low_ratio; eassumption.
  - intros H. eexists. apply Hback, H.
Qed.

(** C2, counterexample.  For a Python text of ten lines, one of them a
    comment, radon counts 9 source lines: the ratio of the record is the
    float of 1/9, not the quotient 1/10 of the comments by the ten
    non-blank lines. *)
Lemma python_ratio_over_source_lines : ~ ratio_over_nonblank.
Proof.
  intros H.
  pose (p := lit "src/app.py").
  specialize (H (Demo.env_radon [(p, Demo.ten_lines_python)])
                (Demo.file_at p (lit "code/python")) _ _ eq_refl eq_refl).
  vm_compute in H. discriminate H.
Qed.

(** C2, amended.  The ratio of a record is the float quotient of its
    [comments] by its [sloc], and 0 when [sloc] is not positive; [sloc] is
    the number of non-blank lines of the text for every strategy but the
    Python one, for which [sloc] and [comments] are radon's counts.  The
    record carries the "Low comment ratio" issue exactly when the ratio is
    below the float 0.1, with the ratio printed as a percentage with two
    decimals.  Nine counted lines with one comment give the float of 1/9
    and no issue, with no comment 0 and "Low comment ratio: 0.00%"; ten
    counted lines with one comment give the float 0.1 and no issue; 4000
    with one give "Low comment ratio: 0.03%".  The ten-line texts of
    [Demo] run through [_get_code_metrics] show these outcomes. *)
Theorem comment_ratio_issue :
  (forall sloc comments, 0 < sloc ->
     comment_ratio sloc comments = binary64 (inject_Z comments / inject_Z sloc)) /\
  (forall sloc comments, sloc <= 0 -> comment_ratio sloc comments = 0%Q) /\
  (forall env st fm m,
     cache_sound env st ->
     fst (_get_code_metrics env st fm) = Some m ->
     exists enc content,
       Env.read_text env (path fm) enc = Some content /\
       (strategy_for env (path fm) <> Python ->
          sloc m = nonblank_count content) /\
       (strategy_for env (path fm) = Python ->
          exists raw, Env.radon_analyze env content = Some raw /\
                      sloc m = raw_sloc raw /\ comments m = raw_comments raw) /\
       let r := comment_ratio (sloc m) (comments m) in
       (In (low_ratio_msg r) (issues m) <-> (r < Config.comment_ratio_min)%Q) /\
       ((exists q, In (low_ratio_msg q) (issues m))
        <-> (r < Config.comment_ratio_min)%Q)) /\
  (Config.comment_ratio_min == 3602879701896397 # 36028797018963968)%Q /\
  ((1 # 9) - (1 # 10 ^ 17) < comment_ratio 9 1 < (1 # 9) + (1 # 10 ^ 17))%Q /\
  ratio_issues 9 1 = [] /\
  comment_ratio 9 0 = 0%Q /\
  ratio_issues 9 0 = [lit "Low comment ratio: 0.00%"] /\
  (comment_ratio 10 1 == Config.comment_ratio_min)%Q /\
  ratio_issues 10 1 = [] /\
  ratio_issues 4000 1 = [lit "Low comment ratio: 0.03%"] /\
  ratio_issues 100 9 = [lit "Low comment ratio: 9.00%"] /\
  (let p := lit "src/app.py" in
   let m := fst (_get_code_metrics (Demo.env_radon [(p, Demo.ten_lines_python)])
                   init (Demo.file_at p (lit "code/python"))) in
   (loc <$> m) = Some 10 /\ (sloc <$> m) = Some 9 /\
   (comments <$> m) = Some 1 /\ (issues <$> m) = Some []) /\
  (let p := lit "src/app.js" in
   let run text :=
     fst (_get_code_metrics (Demo.env [(p, text)]) init
            (Demo.file_at p (lit "code/javascript"))) in
   (loc <$> run Demo.ten_lines_one_comment) = Some 10 /\
   (sloc <$> run Demo.ten_lines_one_comment) = Some 9 /\
   (comments <$> run Demo.ten_lines_one_comment) = Some 1 /\
   (issues <$> run Demo.ten_lines_one_comment) = Some [] /\
   (sloc <$> run Demo.ten_lines_no_comment) = Some 9 /\
   (comments <$> run Demo.ten_lines_no_comment) = Some 0 /\
   (issues <$> run Demo.ten_lines_no_comment) =
     Some [lit "Low comment ratio: 0.00%"]).
Proof.
  split; [exact comment_ratio_pos |].
  split; [exact comment_ratio_nonpos |].
  split.
  { intros env st fm m Hst Hm.
    destruct (get_code_metrics_sound env st fm Hst) as [_ Hp].
    destruct (Hp m Hm) as (enc & content & v & Hr & Hv & ->).
    destruct (measures_sloc _ _ _ _ Hv) as [Hn Hpy].
    exists enc, content. split; [exact Hr |].
    split; [intros Hs; by destruct (Hn Hs) |].
    split.
    { intros Hs. destruct (Hpy Hs) as (raw & Hraw & _ & Hsl & Hco).
      exists raw. auto. }
    rewrite issues_make_metrics. cbn [sloc comments make_metrics].
    fold (quality_issues (v_sloc v) (v_comments v)).
    apply low_ratio_issue_iff. }
  split; [vm_compute; reflexivity |].
  split; [split; vm_compute; reflexivity |].
  repeat (split; [vm_compute; reflexivity |]).
  split; vm_compute; repeat split; reflexivity.
Qed.

(** ** Classification *)

Lemma find_first {A : Type} (f : A -> bool) (l : list A) (x : A) :
  List.find f l = Some x ->
  exists l1 l2, l = l1 ++ x :: l2 /\ f x = true /\ Forall (fun y => f y = false) l1.
Proof.
  induction l as [| a l IH]; simpl; [discriminate |].
  destruct (f a) eqn:E.
  - intros [= ->]. exists [], l. repeat split; [assumption | constructor].
  - intros H. destruct (IH H) as (l1 & l2 & -> & Hx & Hl1).
    exists (a :: l1), l2. repeat split; [assumption | by constructor].
Qed.

Lemma code_language_first ext lang :
  code_language ext = Some lang ->
  exists before exts after,
    Config.SUPPORTED_CODE_EXTENSIONS = before ++ (lang, exts) :: after /\
    mem ext exts = true /\
    Forall (fun le => mem ext (snd le) = false) before.
Proof.
  unfold code_language. intros H.
  destruct (List.find _ _) as [[l exts] |] eqn:E; [| discriminate].
  simpl in H. injection H as ->.
  destruct (find_first _ _ _ E) as (l1 & l2 & Hl & Hx & Hl1).
  exists l1, exts, l2. auto.
Qed.

Lemma mem_In x l : mem x l = true <-> In x l.
Proof.
  unfold mem. rewrite existsb_exists. split.
  - intros (y & Hy & He). unfold str_eqb in He.
    apply bool_decide_eq_true in He. by subst.
  - intros H. exists x. split; [assumption |].
    unfold str_eqb. by apply bool_decide_eq_true.
Qed.

Lemma startswith_prefix p : forall s,
  startswith s p = true <-> exists b, s = p ++ b.
Proof.
  induction p as [| a p IH]; intros s.
  - destruct s; simpl; split; eauto.
  - destruct s as [| c s]; simpl.
    + split; [discriminate | intros [b H]; discriminate H].
    + rewrite andb_true_iff, N.eqb_eq, IH. split.
      * intros [-> [b ->]]. by exists b.
      * intros [b [= -> ->]]. split; [reflexivity | by exists b].
Qed.

Lemma contains_substring p s : contains p s = true <-> substring p s.
Proof.
  unfold substring. induction s as [| c s IH].
  - cbn [contains]. rewrite orb_false_r, startswith_prefix. split.
    + intros [b H]. exists [], b. exact H.
    + intros (a & b & H). destruct a; [by exists b | discriminate H].
  - cbn [contains]. rewrite orb_true_iff, startswith_prefix, IH. split.
    + intros [[b H] | (a & b & H)].
      * exists [], b. exact H.
      * exists (c :: a), b. by rewrite H.
    + intros (a & b & H). destruct a as [| c' a].
      * left. by exists b.
      * right. injection H as -> ->. by exists a, b.
Qed.

(** The buckets of [SUPPORTED_CODE_EXTENSIONS] are disjoint: whatever
    bucket holds a suffix, the loop over the table stops at it. *)
Lemma code_language_table lang exts ext :
  In (lang, exts) Config.SUPPORTED_CODE_EXTENSIONS -> In ext exts ->
  code_language ext = Some lang.
Proof.
  unfold Config.SUPPORTED_CODE_EXTENSIONS. intros H He. simpl in H.
  repeat (destruct H as [H | H];
          [injection H as <- <-; simpl in He;
           repeat (destruct He as [<- | He]; [vm_compute; reflexivity |]);
           destruct He |]).
  destruct H.
Qed.

Lemma code_rule_iff ext lang : code_rule ext lang <-> code_language ext = Some lang.
Proof.
  split.
  - intros (exts & Hin & He). by eapply code_language_table.
  - intros H. destruct (code_language_first _ _ H) as (l1 & exts & l2 & Hl & Hm & _).
    exists exts. split; [| by apply mem_In].
    rewrite Hl. apply in_or_app. right. by left.
Qed.

Lemma doc_rule_iff ext : doc_rule ext <-> is_doc ext = true.
Proof. unfold doc_rule, is_doc. by rewrite mem_In. Qed.

Lemma config_rule_iff name ext :
  config_rule name ext <-> is_config name ext = true.
Proof. unfold config_rule, is_config. by rewrite orb_true_iff, !mem_In. Qed.

Lemma test_rule_iff name : test_rule name <-> is_test name = true.
Proof.
  unfold test_rule, is_test. by rewrite orb_true_iff, !contains_substring.
Qed.

(** The category strings differ from each other. *)
Lemma category_names_differ lang :
  lit "code/" ++ lang <> lit "documentation" /\
  lit "code/" ++ lang <> lit "configuration" /\
  lit "code/" ++ lang <> lit "test" /\
  lit "code/" ++ lang <> lit "other" /\
  lit "documentation" <> lit "configuration" /\
  lit "documentation" <> lit "test" /\
  lit "documentation" <> lit "other" /\
  lit "configuration" <> lit "test" /\
  lit "configuration" <> lit "other" /\
  lit "test" <> lit "other".
Proof. repeat split; intros H; vm_compute in H; discriminate H. Qed.

(** C7. [_categorize_file] gives every path one category, never the empty
    string and always one of: code/<language> for a language of the table,
    documentation, configuration, test, other.  The rules are those of the
    source tables, tried in this order, the first that matches deciding:
    the category is code/<language> exactly when the lower-cased suffix
    is in the bucket of the language in [SUPPORTED_CODE_EXTENSIONS];
    documentation exactly when it is in no bucket and among the document
    suffixes; configuration exactly when neither holds and the lower-cased
    name is one of the configuration names or the suffix one of the
    configuration suffixes; test exactly when none of these holds and the
    name contains "test" or "spec"; other exactly when nothing matches. *)
Theorem categorize_file_total_priority (env : Env.t) (filepath : str) :
  let ext := Env.lower env (path_suffix filepath) in
  let name := Env.lower env (path_name filepath) in
  let c := _categorize_file env filepath in
  c <> [] /\
  ((exists lang, In lang (map fst Config.SUPPORTED_CODE_EXTENSIONS) /\
                 c = lit "code/" ++ lang) \/
   c = lit "documentation" \/ c = lit "configuration" \/
   c = lit "test" \/ c = lit "other") /\
  (forall lang, c = lit "code/" ++ lang <-> code_rule ext lang) /\
  (c = lit "documentation" <->
     (forall lang, ~ code_rule ext lang) /\ doc_rule ext) /\
  (c = lit "configuration" <->
     (forall lang, ~ code_rule ext lang) /\ ~ doc_rule ext /\
     config_rule name ext) /\
  (c = lit "test" <->
     (forall lang, ~ code_rule ext lang) /\ ~ doc_rule ext /\
     ~ config_rule name ext /\ test_rule name) /\
  (c = lit "other" <->
     (forall lang, ~ code_rule ext lang) /\ ~ doc_rule ext /\
     ~ config_rule name ext /\ ~ test_rule name).
Proof.
  intros ext name c. subst c. unfold _categorize_file. fold ext name.
  destruct (code_language ext) as [lang |] eqn:Hcode.
  - pose proof (proj2 (code_rule_iff ext lang) Hcode) as Hrule.
    destruct (category_names_differ lang) as (N1 & N2 & N3 & N4 & _).
    split; [discriminate |]. split.
    { left. exists lang. split; [| reflexivity].
      destruct Hrule as (exts & Hin & _).
      apply (in_map fst) in Hin. exact Hin. }
    split.
    { intros l. rewrite code_rule_iff, Hcode. split.
      - intros H. apply app_inv_head in H. by subst.
      - by intros [= ->]. }
    split; [| split; [| split]];
      (split; [intros E; exfalso; eauto
              | intros [Hn _]; destruct (Hn lang Hrule)]).
  - assert (Hno : forall lang, ~ code_rule ext lang).
    { intros lang H. apply code_rule_iff in H. congruence. }
    assert (Hcat : forall lang X, X <> lit "code/" ++ lang ->
               (X = lit "code/" ++ lang <-> code_rule ext lang)).
    { intros lang X HX. split; [by intros ? | by intros ?%Hno]. }
    pose proof (doc_rule_iff ext) as Hd.
    pose proof (config_rule_iff name ext) as Hc.
    pose proof (test_rule_iff name) as Ht.
    destruct (category_names_differ []) as (_ & _ & _ & _ & D1 & D2 & D3 & D4 & D5 & D6).
    destruct (is_doc ext);
      [| destruct (is_config name ext); [| destruct (is_test name)]].
    all: split; [discriminate |].
    all: split; [tauto |].
    all: split;
      [intros lang; apply Hcat; intros E;
       by destruct (category_names_differ lang) as (? & ? & ? & ? & _) |].
    all: assert (Hdoc : doc_rule ext \/ ~ doc_rule ext)
           by (rewrite Hd; destruct (decide (true = true)); try tauto;
               right; discriminate).
    all: repeat split; try tauto; try congruence;
      try (intros ?; exfalso; intuition congruence);
      try (intros (? & ?); exfalso; intuition congruence).
Qed.

(** The priorities on file names that several rules match. *)
Example categorize_priorities :
  let cat p := _categorize_file (Demo.env []) (lit p) in
  cat "proj/Main.PY" = lit "code/python" /\
  cat "proj/setup.py" = lit "code/python" /\
  cat "proj/test_view.tsx" = lit "code/javascript" /\
  cat "proj/requirements.txt" = lit "documentation" /\
  cat "proj/test_plan.md" = lit "documentation" /\
  cat "proj/test.json" = lit "configuration" /\
  cat "proj/docker-compose.yml" = lit "configuration" /\
  cat "proj/spec_helper.bin" = lit "test" /\
  cat "proj/Makefile" = lit "other" /\
  cat "proj/.gitignore" = lit "configuration".
Proof. vm_compute. repeat split; reflexivity. Qed.

(** ** The code cache and the per-file [duplicates] field *)

Lemma cache_ok_init : cache_ok init.
Proof. intros k m H. simpl in H. by rewrite lookup_empty in H. Qed.

Lemma get_code_metrics_ok env st fm :
  cache_ok st ->
  cache_ok (snd (_get_code_metrics env st fm)) /\
  forall m, fst (_get_code_metrics env st fm) = Some m -> duplicates m = [].
Proof.
  intros Hst. unfold _get_code_metrics.
  destruct (code_cache st !! path fm) as [m0 |] eqn:Hc; simpl.
  - split; [assumption |]. intros m [= <-]. eapply Hst, Hc.
  - destruct (Env.read_text env (path fm) (encoding fm)) as [content |]; simpl;
      [| split; [assumption | discriminate]].
    destruct (measures env (path fm) content) as [v |]; simpl;
      [| split; [assumption | discriminate]].
    split.
    + intros k m. simpl. intros H.
      apply lookup_insert_Some in H as [[_ <-] | [_ H]]; [reflexivity |].
      eapply Hst, H.
    + intros m [= <-]. reflexivity.
Qed.

Lemma map_code_metrics_ok env fs : forall st,
  cache_ok st ->
  cache_ok (snd (map_code_metrics env st fs)) /\
  Forall (fun r => forall m, r = Some m -> duplicates m = [])
         (fst (map_code_metrics env st fs)).
Proof.
  induction fs as [| f fs IH]; intros st Hst; simpl.
  - split; [assumption | constructor].
  - destruct (get_code_metrics_ok env st f Hst) as [H1 H2].
    destruct (_get_code_metrics env st f) as [m st1]. simpl in H1, H2.
    destruct (IH st1 H1) as [H3 H4].
    destruct (map_code_metrics env st1 fs) as [ms st2]. simpl in *.
    split; [assumption | by constructor].
Qed.

Lemma analyze_group_ok env st fs :
  cache_ok st -> cache_ok (snd (analyze_group env st fs)).
Proof.
  intros Hst. unfold analyze_group.
  pose proof (map_code_metrics_ok env fs st Hst) as [H _].
  destruct (map_code_metrics env st fs) as [ms st1]. exact H.
Qed.

Lemma analyze_groups_ok env groups : forall st metrics,
  cache_ok st -> cache_ok (snd (analyze_groups env st groups metrics)).
Proof.
  induction groups as [| [lang fs] groups IH]; intros st metrics Hst; simpl.
  - assumption.
  - pose proof (analyze_group_ok env st fs Hst) as H.
    destruct (analyze_group env st fs) as [[e |] st1]; simpl in H; by apply IH.
Qed.

Lemma analyze_file_code_cache env st f :
  code_cache (snd (_analyze_file env st f)) = code_cache st.
Proof. unfold _analyze_file. by destruct (Env.probe env f). Qed.

Lemma map_analyze_file_code_cache env fs : forall st,
  code_cache (snd (map_analyze_file env st fs)) = code_cache st.
Proof.
  induction fs as [| f fs IH]; intros st; simpl; [reflexivity |].
  pose proof (analyze_file_code_cache env st f) as H.
  destruct (_analyze_file env st f) as [m st1]. simpl in H.
  specialize (IH st1).
  destruct (map_analyze_file env st1 fs) as [ms st2]. simpl in *. congruence.
Qed.

Lemma analyze_project_ok env st root tree :
  cache_ok st -> cache_ok (snd (analyze_project env st root tree)).
Proof.
  intros Hst. unfold analyze_project.
  destruct (_collect_files root tree) as [discovered |]; [| assumption].
  pose proof (map_analyze_file_code_cache env discovered st) as Hc.
  destruct (map_analyze_file env st discovered) as [fmd st1]. simpl in Hc.
  assert (H1 : cache_ok st1).
  { intros k m H. rewrite Hc in H. eapply Hst, H. }
  destruct (code_files_of fmd) as [code |]; [| assumption].
  unfold _analyze_code_files.
  destruct (group_by_language code []) as [groups |]; simpl; [| assumption].
  pose proof (analyze_groups_ok env groups st1 [] H1) as H2.
  by destruct (analyze_groups env st1 groups []) as [cm st2].
Qed.

(** C10. The [duplicates] field of a per-file record is empty when the
    record is built and nothing changes it: the cache starts empty, every
    call of [_get_code_metrics] on a cache of such records returns such a
    record and leaves such a cache, so the lists of records computed for
    the groups of a run, and the cache at the end of a run, hold only
    records with [duplicates = []]. *)
Theorem per_file_duplicates_empty (env : Env.t) :
  (forall v, duplicates (make_metrics v) = []) /\
  cache_ok init /\
  (forall st fm, cache_ok st ->
     cache_ok (snd (_get_code_metrics env st fm)) /\
     forall m, fst (_get_code_metrics env st fm) = Some m -> duplicates m = []) /\
  (forall st fs, cache_ok st ->
     Forall (fun r => forall m, r = Some m -> duplicates m = [])
            (fst (map_code_metrics env st fs))) /\
  (forall root tree k m,
     code_cache (snd (analyze_project env init root tree)) !! k = Some m ->
     duplicates m = []).
Proof.
  split; [reflexivity |].
  split; [exact cache_ok_init |].
  split; [apply get_code_metrics_ok |].
  split.
  - intros st fs Hst. by apply map_code_metrics_ok.
  - intros root tree. apply analyze_project_ok, cache_ok_init.
Qed.

(** ** Line and comment counts *)

Lemma js_comment_step_bound st line :
  snd st <= snd (js_comment_step st line) <= snd st + 1.
Proof.
  destruct st as [b c]. unfold js_comment_step.
  repeat match goal with |- context [if ?x then _ else _] => destruct x end;
    simpl; lia.
Qed.

Lemma js_comments_fold_bound lines : forall st,
  snd st <= snd (fold_left js_comment_step lines st)
         <= snd st + Z.of_nat (length lines).
Proof.
  induction lines as [| l lines IH]; intros st.
  - simpl. lia.
  - cbn [fold_left length].
    pose proof (js_comment_step_bound st l).
    specialize (IH (js_comment_step st l)). lia.
Qed.

Lemma js_comments_bound content :
  0 <= js_comments content <= Z.of_nat (length (splitlines content)).
Proof.
  unfold js_comments.
  pose proof (js_comments_fold_bound (splitlines content) (false, 0)) as H.
  simpl in H. lia.
Qed.

Lemma generic_sloc_bound content :
  0 <= v_sloc (generic_measures content) <= v_loc (generic_measures content).
Proof.
  simpl. pose proof (filter_length_le nonblank (splitlines content)). lia.
Qed.

(** A record returned on an empty cache was built from the text of the
    file by [measures]. *)
Lemma get_code_metrics_init env fm m :
  fst (_get_code_metrics env init fm) = Some m ->
  exists content v,
    Env.read_text env (path fm) (encoding fm) = Some content /\
    measures env (path fm) content = Some v /\
    m = make_metrics v.
Proof.
  unfold _get_code_metrics. simpl. rewrite lookup_empty.
  destruct (Env.read_text env (path fm) (encoding fm)) as [content |];
    [| discriminate].
  destruct (measures env (path fm) content) as [v |] eqn:E; [| discriminate].
  simpl. intros [= <-]. eauto.
Qed.

(** C3, counterexample.  A one-line HTML file with two comment spans gets
    [loc = 1] and [comments = 2]. *)
Lemma html_comments_exceed_lines :
  ~ (forall env fm m,
       fst (_get_code_metrics env init fm) = Some m -> counts_within_lines m).
Proof.
  intros H.
  pose (p := lit "site/index.html").
  specialize (H (Demo.env [(p, lit "<!--a--><!--b-->")])
                (Demo.file_at p (lit "code/web")) _ eq_refl).
  vm_compute in H. destruct H as [_ H]. apply H. reflexivity.
Qed.

Lemma measures_counts env k content v :
  measures env k content = Some v ->
  let strat := strategy_for env k in
  (strat <> Python ->
     v_loc v = line_count content /\ v_sloc v = nonblank_count content /\
     0 <= v_sloc v <= v_loc v) /\
  (strat = Generic -> v_comments v = 0) /\
  (strat = JavaScript ->
     v_comments v = js_comments content /\ 0 <= v_comments v <= v_loc v) /\
  (strat = HTML -> v_comments v = html_comments content) /\
  (strat = CSS -> v_comments v = css_comments content) /\
  (strat = Python ->
     exists raw, Env.radon_analyze env content = Some raw /\
       v_loc v = raw_loc raw /\ v_sloc v = raw_sloc raw /\
       v_comments v = raw_comments raw).
Proof.
  intros Hv strat. unfold measures in Hv. fold (strategy_for env k) in Hv.
  fold strat in Hv.
  pose proof (generic_sloc_bound content) as Hs.
  pose proof (js_comments_bound content) as Hj.
  unfold line_count, nonblank_count.
  destruct strat.
  - unfold python_measures in Hv.
    destruct (Env.radon_analyze env content) as [raw |]; [| discriminate].
    destruct (Env.radon_cc_visit env content);
      injection Hv as <-; simpl;
      (repeat split; try discriminate; try congruence);
      intros _; exists raw; auto.
  - injection Hv as <-. simpl in *.
    repeat split; try discriminate; try lia.
  - injection Hv as <-. simpl in *.
    repeat split; try discriminate; try lia.
  - injection Hv as <-. simpl in *.
    repeat split; try discriminate; try lia.
  - injection Hv as <-. simpl in *.
    repeat split; try discriminate; try lia.
Qed.

Lemma demo_radon_consistent fs : radon_consistent (Demo.env_radon fs).
Proof.
  intros content raw H. simpl in H. unfold Demo.count_lines in H.
  injection H as <-. cbn [raw_loc raw_sloc raw_comments].
  pose proof (filter_length_le
                (fun l => nonblank l && negb (Demo.hash_comment l))
                (splitlines content)).
  pose proof (filter_length_le Demo.hash_comment (splitlines content)).
  lia.
Qed.

(** C3, amended.  For every record [_get_code_metrics] returns,
    [0 <= sloc <= loc], and [0 <= comments <= loc] unless the strategy
    is the HTML or the CSS one.  For the generic, JavaScript, HTML and
    CSS strategies [loc] is the number of lines of the text and [sloc]
    the number of its non-blank lines; the generic strategy counts no
    comment, the JavaScript one at most one per line, and the HTML and
    CSS ones set [comments] to the number of comment spans in the text,
    which the number of lines does not bound.  The Python strategy copies
    the three counts radon reports, which are within radon's number of
    lines. *)
Theorem counts_bounds_by_strategy (env : Env.t) (st : Analyzer)
    (fm : FileMetadata) (m : CodeMetrics) :
  radon_consistent env ->
  cache_sound env st ->
  fst (_get_code_metrics env st fm) = Some m ->
  let strat := strategy_for env (path fm) in
  0 <= sloc m <= loc m /\
  (strat <> HTML -> strat <> CSS -> 0 <= comments m <= loc m) /\
  exists enc content,
    Env.read_text env (path fm) enc = Some content /\
    (strat <> Python ->
       loc m = line_count content /\ sloc m = nonblank_count content) /\
    (strat = Generic -> comments m = 0) /\
    (strat = JavaScript -> comments m = js_comments content) /\
    (strat = HTML -> comments m = html_comments content) /\
    (strat = CSS -> comments m = css_comments content) /\
    (strat = Python ->
       exists raw, Env.radon_analyze env content = Some raw /\
         loc m = raw_loc raw /\ sloc m = raw_sloc raw /\
         comments m = raw_comments raw).
Proof.
  intros Hradon Hst Hm strat.
  destruct (get_code_metrics_sound env st fm Hst) as [_ Hp].
  destruct (Hp m Hm) as (enc & content & v & Hr & Hv & ->).
  destruct (measures_counts _ _ _ _ Hv)
    as (Hn & Hg & Hj & Hh & Hc & Hpy).
  fold strat in Hn, Hg, Hj, Hh, Hc, Hpy.
  cbn [loc sloc comments make_metrics].
  assert (Hsl : 0 <= v_sloc v <= v_loc v).
  { destruct strat eqn:E; try (apply Hn; discriminate).
    destruct (Hpy eq_refl) as (raw & Hraw & -> & -> & _).
    by destruct (Hradon _ _ Hraw). }
  split; [exact Hsl |]. split.
  - intros Hnh Hnc. destruct strat eqn:E; try congruence.
    + destruct (Hpy eq_refl) as (raw & Hraw & -> & _ & ->).
      by destruct (Hradon _ _ Hraw).
    + by destruct (Hj eq_refl).
    + rewrite (Hg eq_refl). lia.
  - exists enc, content. split; [exact Hr |].
    split; [intros H; by destruct (Hn H) as (? & ? & _) |].
    split; [exact Hg |].
    split; [intros H; by destruct (Hj H) |].
    auto.
Qed.

Lemma counts_bounds_by_strategy_witness :
  let p := lit "src/app.py" in
  let env := Demo.env_radon [(p, Demo.ten_lines_python)] in
  let fm := Demo.file_at p (lit "code/python") in
  exists m,
    fst (_get_code_metrics env init fm) = Some m /\
    strategy_for env (path fm) = Python /\
    0 <= sloc m <= loc m /\ 0 <= comments m <= loc m.
Proof.
  intros p env fm.
  assert (H : { m | fst (_get_code_metrics env init fm) = Some m }).
  { eexists. vm_compute. reflexivity. }
  destruct H as [m Hm]. exists m.
  assert (Hs : strategy_for env (path fm) = Python)
    by (vm_compute; reflexivity).
  destruct (counts_bounds_by_strategy env init fm m
              (demo_radon_consistent _) (cache_sound_init env) Hm)
    as (Hsl & Hco & _).
  split; [exact Hm |]. split; [exact Hs |]. split; [exact Hsl |].
  apply Hco; rewrite Hs; discriminate.
Defined.

(** ** Failures of single files *)

Lemma map_analyze_file_failed env files : forall st f,
  In f files -> Env.probe env f = None ->
  In None (fst (map_analyze_file env st files)).
Proof.
  induction files as [| g files IH]; intros st f Hin Hp; [destruct Hin |].
  simpl. destruct (_analyze_file env st g) as [m st1] eqn:E.
  destruct (map_analyze_file env st1 files) as [ms st2] eqn:E2. simpl.
  destruct Hin as [-> | Hin].
  - left. unfold _analyze_file in E. rewrite Hp in E. congruence.
  - right. specialize (IH st1 f Hin Hp). by rewrite E2 in IH.
Qed.

Lemma code_files_of_failed file_metadata :
  In None file_metadata -> code_files_of file_metadata = None.
Proof.
  induction file_metadata as [| [f |] r IH]; intros H; simpl.
  - destruct H.
  - destruct H as [H | H]; [discriminate |]. by rewrite (IH H).
  - reflexivity.
Qed.

Lemma categorize_files_skips_failed file_metadata : forall categories,
  fold_left categorize_step (None :: file_metadata) categories =
  fold_left categorize_step file_metadata categories.
Proof. reflexivity. Qed.

(** Whenever the extraction of one discovered file fails, the run ends in
    the outer handler of [analyze_project]. *)
Lemma failed_file_aborts_run env st root tree discovered f :
  _collect_files root tree = Some discovered ->
  In f discovered ->
  Env.probe env f = None ->
  fst (analyze_project env st root tree) = None.
Proof.
  intros Hc Hin Hp. unfold analyze_project. rewrite Hc.
  pose proof (map_analyze_file_failed env discovered st f Hin Hp) as H.
  destruct (map_analyze_file env st discovered) as [fmd st1]. simpl in H.
  by rewrite (code_files_of_failed _ H).
Qed.

(** C1, the run at the failing input.  The tree holds [a.js] and [b.js];
    [b.js] cannot be examined.  [_analyze_file] returns [None] for it and
    [_categorize_files] skips that [None], but the selection of the code
    files reads [.category] of it: [analyze_project] raises and returns
    no result, although [a.js] was analysed. *)
Theorem unreadable_file_aborts_analysis :
  let env := Demo.env [(lit "proj/a.js", Demo.ten_lines_one_comment)] in
  let tree := MkDir [] [(lit "a.js", Some 120); (lit "b.js", Some 80)] in
  _collect_files (lit "proj") tree = Some [lit "proj/a.js"; lit "proj/b.js"] /\
  is_Some (fst (_analyze_file env init (lit "proj/a.js"))) /\
  fst (_analyze_file env init (lit "proj/b.js")) = None /\
  map fst (_categorize_files
             (fst (map_analyze_file env init [lit "proj/a.js"; lit "proj/b.js"])))
    = [lit "code/javascript"] /\
  fst (analyze_project env init (lit "proj") tree) = None /\
  is_Some (fst (analyze_project env init (lit "proj")
                  (MkDir [] [(lit "a.js", Some 120)]))).
Proof.
  vm_compute. repeat split; try reflexivity; eexists; reflexivity.
Qed.

(** ** Failures of a language group *)

Lemma dict_get_set {V : Type} (k k' : str) (v : V) (d : dict V) :
  dict_get k (dict_set k' v d) = if str_eqb k' k then Some v else dict_get k d.
Proof.
  unfold str_eqb.
  induction d as [| [k0 v0] d IH]; simpl; unfold str_eqb.
  - reflexivity.
  - destruct (bool_decide_reflect (k0 = k')) as [-> | Hne]; simpl; unfold str_eqb.
    + by destruct (bool_decide_reflect (k' = k)).
    + rewrite IH.
      destruct (bool_decide_reflect (k0 = k)) as [-> | Hne2];
        [| reflexivity].
      destruct (bool_decide_reflect (k' = k)) as [-> | Hne3];
        [congruence | reflexivity].
Qed.

Lemma analyze_groups_app env a : forall st b metrics,
  analyze_groups env st (a ++ b) metrics =
  analyze_groups env (snd (analyze_groups env st a metrics)) b
                 (fst (analyze_groups env st a metrics)).
Proof.
  induction a as [| [lang fs] a IH]; intros st b metrics; simpl.
  - reflexivity.
  - destruct (analyze_group env st fs) as [[e |] st1]; apply IH.
Qed.

(** A language that no group carries gets no entry. *)
Lemma analyze_groups_absent env groups lang : forall st metrics,
  ~ In lang (map fst groups) ->
  dict_get lang metrics = None ->
  dict_get lang (fst (analyze_groups env st groups metrics)) = None.
Proof.
  induction groups as [| [l fs] groups IH]; intros st metrics Hin Hm; simpl.
  - assumption.
  - simpl in Hin.
    destruct (analyze_group env st fs) as [[e |] st1]; apply IH; try tauto.
    rewrite dict_get_set. unfold str_eqb.
    destruct (bool_decide_reflect (l = lang)); [tauto | assumption].
Qed.

(** C4, counterexample.  The Halstead report of a Python file is no
    number, the sum of the maintainability values raises, and the result
    has no entry for python. *)
Lemma failed_group_entry_missing : ~ failed_group_has_entry.
Proof.
  intros H.
  pose (p := lit "proj/a.py").
  specialize (H (Demo.env_radon [(p, lit "x = 1")]) init (lit "python")
                [Demo.file_at p (lit "code/python")] eq_refl).
  vm_compute in H. destruct H as [e H]. discriminate H.
Qed.

(** C4, amended.  When the body of a group raises at its turn, the result
    of the loop has no entry for that language, and the loop goes on with
    the groups after it: the result is the one of the remaining groups
    run from the cache the failed group left. *)
Theorem failed_group_is_omitted (env : Env.t) (st : Analyzer)
    (before after : dict (list FileMetadata)) (lang : str) (fs : list FileMetadata) :
  let m1 := fst (analyze_groups env st before []) in
  let st1 := snd (analyze_groups env st before []) in
  fst (analyze_group env st1 fs) = None ->
  ~ In lang (map fst before) ->
  ~ In lang (map fst after) ->
  let result := fst (analyze_groups env st (before ++ (lang, fs) :: after) []) in
  dict_get lang result = None /\
  result = fst (analyze_groups env (snd (analyze_group env st1 fs)) after m1).
Proof.
  intros m1 st1 Hraise Hb Ha result.
  assert (E : result =
              fst (analyze_groups env (snd (analyze_group env st1 fs)) after m1)).
  { subst result. rewrite analyze_groups_app. fold m1 st1. simpl.
    destruct (analyze_group env st1 fs) as [[e |] st2]; simpl in *;
      [discriminate | reflexivity]. }
  split; [| exact E].
  rewrite E. apply analyze_groups_absent; [assumption |].
  subst m1. by apply analyze_groups_absent.
Qed.

Lemma failed_group_is_omitted_witness :
  let env := Demo.env_radon [(lit "proj/a.py", lit "x = 1");
                             (lit "proj/b.js", Demo.ten_lines_one_comment)] in
  let py := Demo.file_at (lit "proj/a.py") (lit "code/python") in
  let js := Demo.file_at (lit "proj/b.js") (lit "code/javascript") in
  let result :=
    fst (analyze_groups env init
           ([] ++ (lit "python", [py]) :: [(lit "javascript", [js])]) []) in
  dict_get (lit "python") result = None /\
  map fst result = [lit "javascript"].
Proof.
  intros env py js result.
  split.
  - apply (failed_group_is_omitted env init [] [(lit "javascript", [js])]
             (lit "python") [py]).
    + vm_compute. reflexivity.
    + simpl. tauto.
    + vm_compute. intros [H | []]. discriminate H.
  - vm_compute. reflexivity.
Defined.

(** The entry with zero counters is the one of a group none of whose
    files has a record. *)
Lemma group_without_records_zero_filled nfiles file_metrics dups :
  valid_of file_metrics = [] ->
  language_entry nfiles file_metrics dups =
    Some {| Lang.files := Z.of_nat nfiles; Lang.total_loc := 0;
            Lang.avg_complexity := 0%Q; Lang.avg_maintainability := 0%Q;
            Lang.duplicates := []; Lang.issues := [] |}.
Proof. intros H. unfold language_entry. by rewrite H. Qed.

(** A failure of the vectoriser stays inside [_find_duplicates]. *)
Lemma vectoriser_failure_caught env files :
  Env.tfidf_fit_transform env (read_contents env files) = None ->
  _find_duplicates env files = [].
Proof.
  intros H. unfold _find_duplicates.
  destruct (read_contents env files); [reflexivity | by rewrite H].
Qed.

(** ** Per-language means *)

Lemma valid_failed_length file_metrics :
  (length (valid_of file_metrics) + failed_count file_metrics
   = length file_metrics)%nat.
Proof.
  unfold valid_of, failed_count.
  induction file_metrics as [| [m |] r IH]; cbn in *; lia.
Qed.

Lemma map_code_metrics_length env fs : forall st,
  length (fst (map_code_metrics env st fs)) = length fs.
Proof.
  induction fs as [| f fs IH]; intros st; simpl; [reflexivity |].
  destruct (_get_code_metrics env st f) as [m st1].
  specialize (IH st1).
  destruct (map_code_metrics env st1 fs) as [ms st2]. simpl in *. lia.
Qed.

(** When [sum] returns, every value was a number and the result is their
    sum. *)
Lemma sum_values_numbers vs : forall acc s,
  sum_values acc vs = Some s ->
  exists qs, vs = map PyNum qs /\ s = fold_left Qplus qs acc.
Proof.
  induction vs as [| [q |] vs IH]; intros acc s H; simpl in H.
  - injection H as <-. by exists [].
  - destruct (IH _ _ H) as (qs & -> & ->). by exists (q :: qs).
  - discriminate.
Qed.

Lemma language_entry_means nfiles file_metrics dups e :
  language_entry nfiles file_metrics dups = Some e ->
  let valid := valid_of file_metrics in
  let n := length valid in
  Lang.files e = Z.of_nat nfiles /\
  exists mis,
    map maintainability valid = map PyNum mis /\
    ((0 < n)%nat ->
       Lang.avg_complexity e =
         (inject_Z (sum_Z (map complexity valid)) / inject_Z (Z.of_nat n))%Q /\
       Lang.avg_maintainability e = (sum_Q mis / inject_Z (Z.of_nat n))%Q) /\
    (n = 0%nat ->
       Lang.avg_complexity e = 0%Q /\ Lang.avg_maintainability e = 0%Q).
Proof.
  intros H valid n. subst n valid. unfold language_entry in H.
  destruct (valid_of file_metrics) as [| m ms] eqn:E.
  - injection H as <-. simpl. split; [reflexivity |].
    exists []. repeat split; try reflexivity; simpl; lia.
  - destruct (sum_values 0%Q (map maintainability (m :: ms))) as [mi |] eqn:Hs;
      [| discriminate].
    simpl in H. injection H as <-.
    destruct (sum_values_numbers _ _ _ Hs) as (mis & Hm & ->).
    split; [reflexivity |].
    exists mis. split; [exact Hm |].
    split; [intros _; split; reflexivity | discriminate].
Qed.

(** When the body of a group returns its entry, with [N] files fed to
    [_get_code_metrics] and [K] of them without a record, [N - K] records
    are valid and both means are the sum over these records divided by
    [N - K]; when no record is valid both means are 0.  The count of
    files stays [N]. *)
Lemma language_means_exclude_failed (env : Env.t) (st : Analyzer)
    (fs : list FileMetadata) (e : Lang.t) :
  fst (analyze_group env st fs) = Some e ->
  let file_metrics := fst (map_code_metrics env st fs) in
  let valid := valid_of file_metrics in
  let N := length fs in
  let K := failed_count file_metrics in
  length file_metrics = N /\
  (K <= N)%nat /\
  length valid = (N - K)%nat /\
  Lang.files e = Z.of_nat N /\
  exists mis,
    map maintainability valid = map PyNum mis /\
    ((0 < N - K)%nat ->
       Lang.avg_complexity e =
         (inject_Z (sum_Z (map complexity valid))
            / inject_Z (Z.of_nat (N - K)))%Q /\
       Lang.avg_maintainability e =
         (sum_Q mis / inject_Z (Z.of_nat (N - K)))%Q) /\
    ((N - K = 0)%nat ->
       Lang.avg_complexity e = 0%Q /\ Lang.avg_maintainability e = 0%Q).
Proof.
  intros H file_metrics valid N K.
  assert (HN : length file_metrics = N) by apply map_code_metrics_length.
  pose proof (valid_failed_length file_metrics) as HK. fold valid K in HK.
  assert (Hlen : length valid = (N - K)%nat) by lia.
  split; [exact HN |]. split; [lia |]. split; [exact Hlen |].
  unfold analyze_group in H. fold file_metrics in H.
  destruct (map_code_metrics env st fs) as [fm st1] eqn:E.
  simpl in file_metrics. subst file_metrics. simpl in H.
  destruct (language_entry_means _ _ _ _ H) as (Hf & mis & Hm & Hpos & Hzero).
  fold valid in Hm, Hpos, Hzero. rewrite Hlen in Hpos, Hzero.
  split; [exact Hf |]. exists mis. auto.
Qed.

Lemma language_means_exclude_failed_witness :
  let env := Demo.env [(lit "proj/a.js", Demo.ten_lines_one_comment)] in
  let fs := [Demo.file_at (lit "proj/a.js") (lit "code/javascript");
             Demo.file_at (lit "proj/gone.js") (lit "code/javascript")] in
  exists e,
    fst (analyze_group env init fs) = Some e /\
    failed_count (fst (map_code_metrics env init fs)) = 1%nat /\
    length (valid_of (fst (map_code_metrics env init fs))) = (2 - 1)%nat /\
    (Lang.avg_maintainability e == 100)%Q /\
    Lang.files e = 2.
Proof.
  intros env fs.
  assert (H : { e | fst (analyze_group env init fs) = Some e
                    /\ (Lang.avg_maintainability e == 100)%Q }).
  { eexists. split; vm_compute; reflexivity. }
  destruct H as [e [He Hmi]]. exists e.
  destruct (language_means_exclude_failed env init fs e He)
    as (_ & _ & Hlen & Hfiles & _).
  split; [exact He |].
  split; [vm_compute; reflexivity |].
  split; [exact Hlen |].
  split; [exact Hmi | exact Hfiles].
Defined.

Lemma sum_values_object vs : forall acc,
  In PyObject vs -> sum_values acc vs = None.
Proof.
  induction vs as [| [q |] vs IH]; intros acc H; simpl.
  - destruct H.
  - destruct H as [H | H]; [discriminate H | by apply IH].
  - reflexivity.
Qed.

Lemma valid_of_In file_metrics m :
  In (Some m) file_metrics -> In m (valid_of file_metrics).
Proof.
  unfold valid_of.
  induction file_metrics as [| [m0 |] r IH]; intros H; cbn.
  - destruct H.
  - destruct H as [[= ->] | H]; [by left | right; by apply IH].
  - destruct H as [H | H]; [discriminate H | by apply IH].
Qed.

(** C5, divergence.  The record of a Python file that radon parses holds,
    as its maintainability, the report object [h_visit] returns and not a
    number.  Such a record is valid, so it enters the sums of its group,
    and the sum of the maintainabilities raises: the group gets no means
    at all.  For the one-file group of proj/a.py no file fails
    ([N = 1], [K = 0]), and the result of [_analyze_code_files] has no
    entry for the language. *)
Theorem python_group_gets_no_means :
  (forall env st fm content raw items v,
     code_cache st !! path fm = None ->
     Env.read_text env (path fm) (encoding fm) = Some content ->
     strategy_for env (path fm) = Python ->
     Env.radon_analyze env content = Some raw ->
     Env.radon_cc_visit env content = Some items ->
     Env.radon_h_visit env content = Some v ->
     exists m, fst (_get_code_metrics env st fm) = Some m /\
               maintainability m = v) /\
  (forall env st fs m,
     In (Some m) (fst (map_code_metrics env st fs)) ->
     maintainability m = PyObject ->
     fst (analyze_group env st fs) = None) /\
  (let p := lit "proj/a.py" in
   let env := Demo.env_radon [(p, lit "x = 1")] in
   let fs := [Demo.file_at p (lit "code/python")] in
   let file_metrics := fst (map_code_metrics env init fs) in
   length fs = 1%nat /\
   failed_count file_metrics = 0%nat /\
   map maintainability (valid_of file_metrics) = [PyObject] /\
   map complexity (valid_of file_metrics) = [0] /\
   fst (analyze_group env init fs) = None /\
   (fst <$> _analyze_code_files env init fs) = Some []).
Proof.
  split; [| split].
  - intros env st fm content raw items v Hc Hr Hs Hraw Hcc Hh.
    unfold _get_code_metrics. rewrite Hc, Hr. unfold measures.
    unfold strategy_for in Hs. rewrite Hs. unfold python_measures.
    rewrite Hraw, Hcc, Hh. simpl. eexists. split; reflexivity.
  - intros env st fs m Hin Hm. unfold analyze_group.
    destruct (map_code_metrics env st fs) as [file_metrics st1].
    cbn [fst] in *. unfold language_entry.
    pose proof (valid_of_In _ _ Hin) as Hv.
    destruct (valid_of file_metrics) as [| m0 ms] eqn:E; [destruct Hv |].
    rewrite sum_values_object; [reflexivity |].
    rewrite <- Hm. by apply in_map.
  - vm_compute. repeat split; reflexivity.
Qed.

(** ** The project summary *)

(** The loop of [_generate_project_summary], on a dict: the running
    totals are the left-to-right sums and the set holds the keys. *)
Lemma summary_fold code_metrics : forall a (ls : gset str),
  let r := fold_left summary_step code_metrics (a, ls) in
  snd r = list_to_set (map fst code_metrics) ∪ ls /\
  Stats.total_loc (fst r) =
    fold_left Z.add (map (fun kv => Lang.total_loc (snd kv)) code_metrics)
              (Stats.total_loc a) /\
  Stats.avg_complexity (fst r) =
    fold_left Qplus (map (fun kv => Lang.avg_complexity (snd kv)) code_metrics)
              (Stats.avg_complexity a) /\
  Stats.avg_maintainability (fst r) =
    fold_left Qplus (map (fun kv => Lang.avg_maintainability (snd kv)) code_metrics)
              (Stats.avg_maintainability a) /\
  Stats.total_issues (fst r) =
    fold_left Z.add
      (map (fun kv => Z.of_nat (length (Lang.issues (snd kv)))) code_metrics)
      (Stats.total_issues a).
Proof.
  induction code_metrics as [| [k v] l IH]; intros a ls.
  - simpl. split; [by rewrite (left_id_L ∅ (∪)) | repeat split].
  - change (fold_left summary_step ((k, v) :: l) (a, ls))
      with (fold_left summary_step l (summary_step (a, ls) (k, v))).
    destruct (summary_step (a, ls) (k, v)) as [a' ls'] eqn:E.
    unfold summary_step in E. cbn [fst snd] in E. injection E as <- <-.
    match goal with |- context [fold_left summary_step l (?x, ?y)] =>
      specialize (IH x y) end.
    cbv zeta in IH. destruct IH as (H1 & H2 & H3 & H4 & H5).
    cbv zeta. rewrite H1, H2, H3, H4, H5.
    cbn [map fst snd fold_left Stats.total_loc Stats.avg_complexity
         Stats.avg_maintainability Stats.total_issues].
    split; [| repeat split; reflexivity].
    by rewrite (assoc_L (∪)), (comm_L (∪) _ {[k]}).
Qed.

(** The languages of a summary are the keys of the dict, and their number
    is the number of its entries. *)
Lemma summary_languages categorized_files code_metrics :
  NoDup (map fst code_metrics) ->
  let s := _generate_project_summary categorized_files code_metrics in
  Summary.languages s = list_to_set (map fst code_metrics) /\
  elements (Summary.languages s) ≡ₚ map fst code_metrics /\
  base.size (Summary.languages s) = length code_metrics.
Proof.
  intros Hnd s.
  assert (H : Summary.languages s = list_to_set (map fst code_metrics)).
  { subst s. unfold _generate_project_summary.
    pose proof (summary_fold code_metrics
      {| Stats.total_loc := 0; Stats.avg_complexity := 0%Q;
         Stats.avg_maintainability := 0%Q; Stats.total_issues := 0 |} ∅) as H.
    cbv zeta in H. destruct (fold_left summary_step code_metrics _) as [a ls].
    destruct H as [H _]. cbn [snd] in H. cbn [Summary.languages].
    rewrite H. apply (right_id_L ∅ (∪)). }
  split; [exact H |]. rewrite H. split.
  - by apply elements_list_to_set.
  - rewrite size_list_to_set by assumption. apply length_map.
Qed.

Lemma dict_set_keys {V : Type} (k : str) (v : V) (d : dict V) :
  map fst (dict_set k v d) =
  if mem k (map fst d) then map fst d else map fst d ++ [k].
Proof.
  unfold mem. induction d as [| [k0 v0] d IH]; simpl; [reflexivity |].
  unfold str_eqb in *.
  destruct (decide (k0 = k)) as [-> | Hne].
  - rewrite !bool_decide_eq_true_2 by reflexivity. reflexivity.
  - rewrite (bool_decide_eq_false_2 (k0 = k)) by assumption.
    rewrite (bool_decide_eq_false_2 (k = k0)) by congruence.
    simpl. rewrite IH.
    by destruct (existsb _ (map fst d)).
Qed.

Lemma dict_set_nodup {V : Type} (k : str) (v : V) (d : dict V) :
  NoDup (map fst d) -> NoDup (map fst (dict_set k v d)).
Proof.
  intros H. rewrite dict_set_keys.
  destruct (mem k (map fst d)) eqn:E; [assumption |].
  apply NoDup_app. split; [assumption |]. split; [| apply NoDup_singleton].
  intros x Hx Hk. apply list_elem_of_singleton in Hk. subst x.
  unfold mem in E. apply not_true_iff_false in E. apply E.
  apply existsb_exists. exists k. split; [by apply list_elem_of_In |].
  unfold str_eqb. by apply bool_decide_eq_true.
Qed.

Lemma analyze_groups_nodup env groups : forall st metrics,
  NoDup (map fst metrics) ->
  NoDup (map fst (fst (analyze_groups env st groups metrics))).
Proof.
  induction groups as [| [lang fs] groups IH]; intros st metrics H; simpl.
  - assumption.
  - destruct (analyze_group env st fs) as [[e |] st1]; apply IH;
      [by apply dict_set_nodup | assumption].
Qed.

Lemma summary_means categorized_files code_metrics :
  NoDup (map fst code_metrics) ->
  let s := Summary.code_stats
             (_generate_project_summary categorized_files code_metrics) in
  let n := inject_Z (Z.of_nat (length code_metrics)) in
  Stats.total_loc s = sum_Z (map Lang.total_loc (map snd code_metrics)) /\
  Stats.total_issues s =
    sum_Z (map (fun m => Z.of_nat (length (Lang.issues m))) (map snd code_metrics)) /\
  Stats.avg_complexity s =
    match code_metrics with
    | [] => 0%Q
    | _ :: _ => (sum_Q (map Lang.avg_complexity (map snd code_metrics)) / n)%Q
    end /\
  Stats.avg_maintainability s =
    match code_metrics with
    | [] => 0%Q
    | _ :: _ => (sum_Q (map Lang.avg_maintainability (map snd code_metrics)) / n)%Q
    end.
Proof.
  intros Hnd s n. subst s n.
  destruct (summary_languages categorized_files code_metrics Hnd)
    as (_ & _ & Hsize).
  cbv zeta in Hsize. revert Hsize. unfold _generate_project_summary.
  pose proof (summary_fold code_metrics
    {| Stats.total_loc := 0; Stats.avg_complexity := 0%Q;
       Stats.avg_maintainability := 0%Q; Stats.total_issues := 0 |} ∅) as H.
  cbv zeta in H.
  destruct (fold_left summary_step code_metrics _) as [a languages].
  cbn [fst snd Stats.total_loc Stats.avg_complexity
       Stats.avg_maintainability Stats.total_issues] in H.
  destruct H as (_ & Hloc & Hc & Hm & Hi).
  cbn [Summary.languages Summary.code_stats]. intros ->.
  rewrite !map_map.
  destruct code_metrics as [| kv cm].
  - cbn [map fold_left] in Hloc, Hc, Hm, Hi. cbn [length map].
    change (0 <? Z.of_nat 0) with false. cbv iota.
    rewrite Hloc, Hc, Hm, Hi. repeat split.
  - assert (Hpos : (0 <? Z.of_nat (length (kv :: cm))) = true)
      by (apply Z.ltb_lt; cbn [length]; lia).
    rewrite Hpos.
    cbn [Stats.total_loc Stats.avg_complexity
         Stats.avg_maintainability Stats.total_issues].
    rewrite Hloc, Hc, Hm, Hi. repeat split.
Qed.


(** Two languages of unequal size weigh the same in the summary. *)
Example summary_two_languages :
  let entry n c :=
    {| Lang.files := n; Lang.total_loc := 10 * n; Lang.avg_complexity := c;
       Lang.avg_maintainability := 100%Q; Lang.duplicates := [];
       Lang.issues := [] |} in
  let s := _generate_project_summary []
             [(lit "python", entry 9 (4 # 1)); (lit "go", entry 1 (2 # 1))] in
  (Stats.avg_complexity (Summary.code_stats s) == 3)%Q /\
  (Stats.avg_maintainability (Summary.code_stats s) == 100)%Q /\
  Summary.languages s = {[ lit "python"; lit "go" ]}.
Proof.
  intros entry s. split; [| split]; [vm_compute; reflexivity .. |].
  subst s.
  match goal with |- Summary.languages (_generate_project_summary ?c ?m) = _ =>
    destruct (summary_languages c m) as [H _] end.
  - cbn [map fst]. apply NoDup_cons. split; [| apply NoDup_singleton].
    intros H. apply list_elem_of_singleton in H. discriminate H.
  - cbv zeta in H. rewrite H. cbn [map fst list_to_set].
    by rewrite (right_id_L ∅ (∪)).
Qed.

(** ** Duplicate detection *)


















(** * Further properties of the pipeline *)

(** ** When a run completes *)

Lemma language_of_code lang :
  In lang (map fst Config.SUPPORTED_CODE_EXTENSIONS) ->
  split slash (lit "code/" ++ lang) !! 1%nat = Some lang.
Proof.
  intros H. simpl in H.
  repeat (destruct H as [<- | H]; [vm_compute; reflexivity |]).
  destruct H.
Qed.

(** A category that starts with "code/" names a language of the table. *)
Lemma categorize_file_code env p :
  startswith (_categorize_file env p) (lit "code/") = true ->
  exists lang, In lang (map fst Config.SUPPORTED_CODE_EXTENSIONS) /\
               _categorize_file env p = lit "code/" ++ lang.
Proof.
  unfold _categorize_file.
  destruct (code_language _) as [lang |] eqn:E.
  - intros _. exists lang. split; [| reflexivity].
    destruct (code_language_first _ _ E) as (l1 & exts & l2 & -> & _).
    rewrite map_app. apply in_or_app. right. now left.
  - destruct (is_doc _); [vm_compute; discriminate |].
    destruct (is_config _ _); [vm_compute; discriminate |].
    destruct (is_test _); vm_compute; discriminate.
Qed.

Lemma analyze_file_some env st p m :
  fst (_analyze_file env st p) = Some m ->
  path m = p /\ category m = _categorize_file env p.
Proof.
  unfold _analyze_file. destruct (Env.probe env p); [| discriminate].
  simpl. intros [= <-]. split; reflexivity.
Qed.

Lemma analyze_file_is_some env st p :
  is_Some (fst (_analyze_file env st p)) <-> is_Some (Env.probe env p).
Proof.
  unfold _analyze_file. destruct (Env.probe env p); simpl.
  - split; intros _; by eexists.
  - split; intros [? H]; discriminate.
Qed.

(** The records of the extraction pass, in the order of the paths. *)
Lemma map_analyze_file_spec env files : forall st,
  Forall2 (fun p r =>
             (is_Some r <-> is_Some (Env.probe env p)) /\
             forall m, r = Some m ->
               path m = p /\ category m = _categorize_file env p)
          files (fst (map_analyze_file env st files)).
Proof.
  induction files as [| p files IH]; intros st; simpl; [constructor |].
  pose proof (analyze_file_is_some env st p) as H1.
  pose proof (analyze_file_some env st p) as H2.
  destruct (_analyze_file env st p) as [r st1]. simpl in H1, H2.
  specialize (IH st1).
  destruct (map_analyze_file env st1 files) as [rs st2]. simpl in *.
  constructor; [| exact IH]. split; [exact H1 |].
  intros m ->. by apply H2.
Qed.

Lemma code_files_of_all_some file_metadata :
  Forall (fun r : option FileMetadata => is_Some r) file_metadata ->
  code_files_of file_metadata =
    Some (List.filter (fun f => startswith (category f) (lit "code/"))
                      (omap id file_metadata)).
Proof.
  induction 1 as [| r l [f ->] _ IH]; [reflexivity |].
  cbn. rewrite IH. cbn.
  by destruct (startswith (category f) (lit "code/")).
Qed.

Lemma group_by_language_some code_files : forall by_language,
  Forall (fun f => is_Some (language_of f)) code_files ->
  is_Some (group_by_language code_files by_language).
Proof.
  induction code_files as [| f r IH]; intros d H; simpl.
  - by eexists.
  - inversion H as [| ? ? [lang Hl] Hr]; subst. rewrite Hl. simpl.
    by apply IH.
Qed.

(** X1. [analyze_project] returns a result exactly when discovery succeeds
    and the extraction of every discovered file succeeds: grouping the
    code files by language and the per-language analysis never make a run
    fail. *)
Theorem analyze_project_completes_iff (env : Env.t) (st : Analyzer)
    (root : str) (tree : Dir) :
  is_Some (fst (analyze_project env st root tree)) <->
  exists discovered,
    _collect_files root tree = Some discovered /\
    Forall (fun p => is_Some (Env.probe env p)) discovered.
Proof.
  unfold analyze_project.
  destruct (_collect_files root tree) as [discovered |];
    [| split; [intros [? H]; discriminate | intros (? & H & _); discriminate]].
  pose proof (map_analyze_file_spec env discovered st) as Hspec.
  destruct (map_analyze_file env st discovered) as [fmd st1]. simpl in Hspec.
  split.
  - intros Hs. exists discovered. split; [reflexivity |].
    destruct (code_files_of fmd) as [code |] eqn:Hc;
      [| destruct Hs as [? Hs]; discriminate].
    clear Hs. revert code Hc.
    induction Hspec as [| p r ps rs [Hr _] _ IH]; intros code Hc; [constructor |].
    destruct r as [f |]; [| discriminate]. simpl in Hc.
    destruct (code_files_of rs) as [rest |]; [| discriminate].
    constructor; [apply Hr; by eexists | by eapply IH].
  - intros (d & [= <-] & Hall).
    assert (Hsome : Forall (fun r : option FileMetadata => is_Some r) fmd).
    { clear -Hspec Hall. induction Hspec as [| p r ps rs [Hr _] _ IH];
        [constructor |].
      inversion Hall; subst. constructor; [by apply Hr | by apply IH]. }
    rewrite (code_files_of_all_some _ Hsome).
    assert (Hlang : Forall (fun f => is_Some (language_of f))
              (List.filter (fun f => startswith (category f) (lit "code/"))
                           (omap id fmd))).
    { apply List.Forall_forall. intros f Hf. apply filter_In in Hf as [Hf Hcode].
      apply list_elem_of_In, list_elem_of_omap in Hf as (r & Hr & Hid).
      simpl in Hid. subst r.
      assert (Hcat : exists p, category f = _categorize_file env p).
      { clear -Hspec Hr. induction Hspec as [| p r ps rs [_ Hm] _ IH].
        - by apply elem_of_nil in Hr.
        - apply elem_of_cons in Hr as [<- | Hr]; [| by apply IH].
          exists p. by apply Hm. }
      destruct Hcat as [p Hp]. rewrite Hp in Hcode.
      destruct (categorize_file_code _ _ Hcode) as (lang & Hin & Heq).
      unfold language_of. rewrite Hp, Heq. rewrite (language_of_code _ Hin).
      by eexists. }
    unfold _analyze_code_files.
    destruct (group_by_language_some _ [] Hlang) as [groups ->]. simpl.
    destruct (analyze_groups env st1 groups []). by eexists.
Qed.

(** ** The categorized view *)

Lemma sum_Z_from l : forall a, fold_left Z.add l a = a + sum_Z l.
Proof.
  unfold sum_Z. induction l as [| x l IH]; intros a; cbn [fold_left]; [lia |].
  rewrite (IH (a + x)), (IH (0 + x)). lia.
Qed.

Lemma sum_Z_cons x l : sum_Z (x :: l) = x + sum_Z l.
Proof. unfold sum_Z at 1. cbn [fold_left]. rewrite sum_Z_from. lia. Qed.

Lemma sum_Z_single x : sum_Z [x] = x.
Proof. unfold sum_Z. cbn [fold_left]. lia. Qed.

Lemma sum_Z_app l1 l2 : sum_Z (l1 ++ l2) = sum_Z l1 + sum_Z l2.
Proof.
  induction l1 as [| x l1 IH]; simpl; [reflexivity |].
  rewrite !sum_Z_cons, IH. lia.
Qed.

Lemma info_of_snoc g f :
  {| Cat.count := Cat.count (info_of g) + 1;
     Cat.total_size := Cat.total_size (info_of g) + size f;
     Cat.files := Cat.files (info_of g) ++
       [{| row_path := path f; row_size := size f;
           row_modified := modified f; row_mime_type := mime_type f |}] |}
  = info_of (g ++ [f]).
Proof.
  unfold info_of. cbn [Cat.count Cat.total_size Cat.files].
  rewrite length_app, !map_app, sum_Z_app. cbn [length map].
  rewrite sum_Z_single. f_equal. lia.
Qed.

Lemma categorize_files_snoc l x :
  _categorize_files (l ++ [x]) = categorize_step (_categorize_files l) x.
Proof. unfold _categorize_files. by rewrite fold_left_app. Qed.

Lemma valid_records_snoc (l : list (option FileMetadata)) x :
  omap id (l ++ [x]) =
  omap id l ++ match x with Some f => [f] | None => [] end.
Proof. rewrite omap_app. by destruct x. Qed.

Lemma sum_dict_set (g : Cat.t -> Z) k v (d : dict Cat.t) :
  sum_Z (map (fun kv => g (snd kv)) (dict_set k v d)) =
  sum_Z (map (fun kv => g (snd kv)) d) + g v
    - match dict_get k d with Some c => g c | None => 0 end.
Proof.
  induction d as [| [k0 c0] d IH]; simpl.
  - rewrite sum_Z_single. unfold sum_Z. cbn [fold_left]. lia.
  - destruct (str_eqb k0 k); cbn [map snd]; rewrite !sum_Z_cons; cbn [snd];
      [lia |].
    rewrite IH. lia.
Qed.

Lemma categorize_files_nodup file_metadata :
  NoDup (map fst (_categorize_files file_metadata)).
Proof.
  induction file_metadata as [| x l IH] using rev_ind; [constructor |].
  rewrite categorize_files_snoc. destruct x as [f |]; [| exact IH].
  by apply dict_set_nodup.
Qed.

Lemma categorize_files_count_sum file_metadata :
  sum_Z (map (fun kv => Cat.count (snd kv)) (_categorize_files file_metadata))
  = Z.of_nat (length (omap id file_metadata)).
Proof.
  induction file_metadata as [| x l IH] using rev_ind; [reflexivity |].
  rewrite categorize_files_snoc, valid_records_snoc.
  destruct x as [f |]; [| by rewrite app_nil_r].
  unfold categorize_step. rewrite sum_dict_set. rewrite IH.
  rewrite length_app. cbn [length Cat.count].
  destruct (dict_get (category f) (_categorize_files l)); simpl; lia.
Qed.

Lemma categorize_files_size_sum file_metadata :
  sum_Z (map (fun kv => Cat.total_size (snd kv)) (_categorize_files file_metadata))
  = sum_Z (map size (omap id file_metadata)).
Proof.
  induction file_metadata as [| x l IH] using rev_ind; [reflexivity |].
  rewrite categorize_files_snoc, valid_records_snoc.
  destruct x as [f |]; [| by rewrite app_nil_r].
  unfold categorize_step. rewrite sum_dict_set. rewrite IH.
  rewrite map_app, sum_Z_app. cbn [map Cat.total_size].
  rewrite sum_Z_single.
  destruct (dict_get (category f) (_categorize_files l)); simpl; lia.
Qed.

Lemma dict_get_in_nodup {V : Type} (d : dict V) k v :
  NoDup (map fst d) -> In (k, v) d -> dict_get k d = Some v.
Proof.
  induction d as [| [k0 v0] d IHd]; intros Hnd Hin; [destruct Hin |].
  simpl in *. apply NoDup_cons in Hnd as [Hk0 Hnd].
  unfold str_eqb. destruct Hin as [[= -> ->] | Hin].
  - by rewrite bool_decide_eq_true_2.
  - rewrite bool_decide_eq_false_2; [by apply IHd |].
    intros ->. apply Hk0. apply list_elem_of_In.
    apply in_map_iff. by exists (k, v).
Qed.

Lemma categorize_files_lookup_eq file_metadata k :
  dict_get k (_categorize_files file_metadata) =
  category_info k (omap id file_metadata).
Proof.
  induction file_metadata as [| x l IH] using rev_ind; [reflexivity |].
  rewrite categorize_files_snoc, valid_records_snoc.
  destruct x as [f |]; [| by rewrite app_nil_r].
  unfold categorize_step. rewrite dict_get_set.
  unfold category_info. rewrite List.filter_app. cbn [List.filter].
  unfold in_category at 2. unfold str_eqb.
  destruct (bool_decide_reflect (category f = k)) as [<- | Hne].
  - rewrite IH. unfold category_info.
    destruct (List.filter (in_category (category f)) (omap id l)) as [| g0 g];
      cbn [default].
    + reflexivity.
    + cbn [app]. f_equal. exact (info_of_snoc (g0 :: g) f).
  - rewrite app_nil_r. exact IH.
Qed.

(** X2. The categorized view holds, under each category, exactly the
    records of that category in the order of discovery: their number,
    the sum of their sizes and one row per record; a category without
    record has no key, and records that failed are left out. *)
Theorem categorize_files_lookup (file_metadata : list (option FileMetadata))
    (k : str) :
  dict_get k (_categorize_files file_metadata) =
  category_info k (omap id file_metadata).
Proof. apply categorize_files_lookup_eq. Qed.

(** X3. The counts of the categorized view add up to the number of
    records that were extracted and its sizes to the sum of their sizes;
    no category occurs twice, and every category it lists has at least
    one file. *)
Theorem categorize_files_totals (file_metadata : list (option FileMetadata)) :
  let view := _categorize_files file_metadata in
  let records := omap id file_metadata in
  sum_Z (map (fun kv => Cat.count (snd kv)) view) = Z.of_nat (length records) /\
  sum_Z (map (fun kv => Cat.total_size (snd kv)) view) = sum_Z (map size records) /\
  NoDup (map fst view) /\
  (forall k c, In (k, c) view ->
     0 < Cat.count c /\ Cat.count c = Z.of_nat (length (Cat.files c))).
Proof.
  intros view records. subst view records.
  split; [apply categorize_files_count_sum |].
  split; [apply categorize_files_size_sum |].
  split; [apply categorize_files_nodup |].
  intros k c Hin.
  pose proof (dict_get_in_nodup _ _ _ (categorize_files_nodup file_metadata) Hin)
    as Hget.
  rewrite categorize_files_lookup_eq in Hget. unfold category_info in Hget.
  destruct (List.filter _ _) as [| g0 g]; [discriminate |].
  injection Hget as <-. unfold info_of. cbn [Cat.count Cat.files].
  rewrite length_map. simpl. lia.
Qed.

(** ** Totals of a run *)

Lemma analyze_file_metadata_of env st p :
  fst (_analyze_file env st p) = metadata_of env p.
Proof.
  unfold metadata_of, _analyze_file. by destruct (Env.probe env p).
Qed.

Lemma map_analyze_file_map env files : forall st,
  fst (map_analyze_file env st files) = map (metadata_of env) files.
Proof.
  induction files as [| p files IH]; intros st; simpl; [reflexivity |].
  pose proof (analyze_file_metadata_of env st p) as H.
  destruct (_analyze_file env st p) as [r st1]. simpl in H.
  specialize (IH st1).
  destruct (map_analyze_file env st1 files) as [rs st2]. simpl in *.
  by rewrite H, IH.
Qed.

Lemma code_files_of_some_all file_metadata code :
  code_files_of file_metadata = Some code ->
  length (omap id file_metadata) = length file_metadata.
Proof.
  revert code. induction file_metadata as [| [f |] l IH]; intros code H;
    [reflexivity | | discriminate].
  simpl in H. destruct (code_files_of l) as [rest |] eqn:E; [| discriminate].
  cbn. f_equal. by eapply IH.
Qed.

Lemma summary_totals_fields categorized_files code_metrics :
  let s := _generate_project_summary categorized_files code_metrics in
  Summary.total_files s =
    sum_Z (map (fun kv => Cat.count (snd kv)) categorized_files) /\
  Summary.total_size s =
    sum_Z (map (fun kv => Cat.total_size (snd kv)) categorized_files) /\
  Summary.categories s =
    map (fun kv => (fst kv, Cat.count (snd kv))) categorized_files.
Proof.
  unfold _generate_project_summary.
  destruct (fold_left summary_step code_metrics _) as [a languages].
  repeat split.
Qed.

(** X4. In a run that returns a result, the summary counts every
    discovered file: [total_files] is the number of discovered paths,
    [total_size] the sum of the sizes in their records, the [files] view
    is the categorized view of these records and the per-category counts
    of the summary are the counts of that view. *)
Theorem run_summary_totals (env : Env.t) (st : Analyzer) (root : str)
    (tree : Dir) (r : Report) (discovered : list str) :
  fst (analyze_project env st root tree) = Some r ->
  _collect_files root tree = Some discovered ->
  files r = _categorize_files (map (metadata_of env) discovered) /\
  Summary.total_files (summary r) = Z.of_nat (length discovered) /\
  Summary.total_size (summary r) =
    sum_Z (map size (omap (metadata_of env) discovered)) /\
  Summary.categories (summary r) =
    map (fun kv => (fst kv, Cat.count (snd kv))) (files r).
Proof.
  intros Hr Hc. unfold analyze_project in Hr. rewrite Hc in Hr.
  pose proof (map_analyze_file_map env discovered st) as Hm.
  destruct (map_analyze_file env st discovered) as [fmd st1]. simpl in Hm.
  subst fmd.
  destruct (code_files_of (map (metadata_of env) discovered)) as [code |] eqn:Hcode;
    [| discriminate].
  destruct (_analyze_code_files env st1 code) as [[cm st2] |]; [| discriminate].
  simpl in Hr. injection Hr as <-. cbn [files summary].
  pose proof (summary_totals_fields
                (_categorize_files (map (metadata_of env) discovered)) cm)
    as (H1 & H2 & H3).
  split; [reflexivity |].
  split; [| split; [| exact H3]].
  - rewrite H1, categorize_files_count_sum.
    rewrite (code_files_of_some_all _ _ Hcode). by rewrite length_map.
  - rewrite H2, categorize_files_size_sum. do 2 f_equal.
    clear. induction discovered as [| p l IH]; [reflexivity |].
    cbn. destruct (metadata_of env p); cbn; by rewrite IH.
Qed.

Lemma run_summary_totals_witness :
  let env := Demo.env [(lit "proj/a.js", Demo.ten_lines_one_comment);
                       (lit "proj/notes.md", lit "alpha")] in
  let tree := MkDir [] [(lit "a.js", Some 120); (lit "notes.md", Some 5)] in
  exists r,
    fst (analyze_project env init (lit "proj") tree) = Some r /\
    Summary.total_files (summary r) = 2 /\
    map fst (files r) = [lit "code/javascript"; lit "documentation"].
Proof.
  intros env tree.
  assert (H : { r | fst (analyze_project env init (lit "proj") tree) = Some r
                    /\ map fst (files r) =
                       [lit "code/javascript"; lit "documentation"] }).
  { eexists. split; vm_compute; reflexivity. }
  destruct H as [r [Hr Hk]]. exists r.
  destruct (run_summary_totals env init (lit "proj") tree r
              [lit "proj/a.js"; lit "proj/notes.md"] Hr eq_refl)
    as (_ & Ht & _).
  split; [exact Hr |]. split; [exact Ht | exact Hk].
Defined.

(** ** The code cache *)

(** X5. A record [_get_code_metrics] returns is in the code cache under
    the path of the file afterwards; a later request for that path, with
    whatever encoding, returns the same record and changes nothing; the
    entries of other paths and the file cache are untouched. *)
Theorem code_metrics_cached (env : Env.t) (st : Analyzer) (fm : FileMetadata)
    (m : CodeMetrics) :
  fst (_get_code_metrics env st fm) = Some m ->
  let st' := snd (_get_code_metrics env st fm) in
  code_cache st' !! path fm = Some m /\
  (forall fm', path fm' = path fm ->
     _get_code_metrics env st' fm' = (Some m, st')) /\
  (forall k, k <> path fm -> code_cache st' !! k = code_cache st !! k) /\
  file_cache st' = file_cache st.
Proof.
  intros H st'.
  assert (Hc : code_cache st' !! path fm = Some m /\
               (forall k, k <> path fm -> code_cache st' !! k = code_cache st !! k) /\
               file_cache st' = file_cache st).
  { subst st'. unfold _get_code_metrics in *.
    destruct (code_cache st !! path fm) as [m0 |] eqn:E; simpl in *.
    - injection H as <-. auto.
    - destruct (Env.read_text env (path fm) (encoding fm)); [| discriminate].
      destruct (measures env (path fm) s); [| discriminate].
      simpl in *. injection H as <-.
      split; [apply lookup_insert_eq |].
      split; [| reflexivity].
      intros k Hk. by apply lookup_insert_ne. }
  destruct Hc as (H1 & H2 & H3).
  repeat split; try assumption.
  intros fm' Hp. unfold _get_code_metrics. by rewrite Hp, H1.
Qed.

Lemma code_metrics_cached_witness :
  let p := lit "src/app.js" in
  let env := Demo.env [(p, Demo.ten_lines_one_comment)] in
  let fm := Demo.file_at p (lit "code/javascript") in
  let st' := snd (_get_code_metrics env init fm) in
  exists m,
    fst (_get_code_metrics env init fm) = Some m /\
    _get_code_metrics env st' fm = (Some m, st').
Proof.
  intros p env fm st'.
  assert (H : { m | fst (_get_code_metrics env init fm) = Some m }).
  { eexists. vm_compute. reflexivity. }
  destruct H as [m Hm]. exists m. split; [exact Hm |].
  destruct (code_metrics_cached env init fm m Hm) as (_ & Hagain & _).
  by apply Hagain.
Defined.

(** X6. A request that fails, because the file cannot be read or because
    the analysis of its text raises, leaves both caches as they were: the
    failure is not remembered. *)
Theorem failed_metrics_not_cached (env : Env.t) (st : Analyzer)
    (fm : FileMetadata) :
  fst (_get_code_metrics env st fm) = None ->
  snd (_get_code_metrics env st fm) = st /\
  code_cache st !! path fm = None.
Proof.
  unfold _get_code_metrics.
  destruct (code_cache st !! path fm) as [m0 |]; simpl; [discriminate |].
  destruct (Env.read_text env (path fm) (encoding fm)); simpl; [| by auto].
  destruct (measures env (path fm) s); simpl; [discriminate | by auto].
Qed.

Lemma failed_metrics_not_cached_witness :
  let env := Demo.env [] in
  let fm := Demo.file_at (lit "src/gone.js") (lit "code/javascript") in
  snd (_get_code_metrics env init fm) = init.
Proof.
  intros env fm.
  apply (failed_metrics_not_cached env init fm). vm_compute. reflexivity.
Defined.

(** ** Edge cases of the metric engine *)

Lemma quality_issues_no_source sloc comments :
  sloc <= 0 -> quality_issues sloc comments = [lit "Low comment ratio: 0.00%"].
Proof.
  intros H. unfold quality_issues.
  destruct (length_issues_cases sloc) as [[? E] | [[? E] | [? E]]]; try lia.
  rewrite E. unfold ratio_issues. rewrite (comment_ratio_nonpos _ _ H).
  reflexivity.
Qed.

(** X7. A file without text read by a strategy other than the Python one
    gets a record with 0 lines, 0 non-blank lines and 0 comments, and is
    reported with exactly one issue, "Low comment ratio: 0.00%"; so is
    every record whose count of non-blank lines is not positive. *)
Theorem empty_file_low_ratio (env : Env.t) (st : Analyzer) (fm : FileMetadata) :
  code_cache st !! path fm = None ->
  Env.read_text env (path fm) (encoding fm) = Some [] ->
  strategy_of (Env.lower env (path_suffix (path fm))) <> Python ->
  (exists m,
     fst (_get_code_metrics env st fm) = Some m /\
     loc m = 0 /\ sloc m = 0 /\ comments m = 0 /\
     issues m = [lit "Low comment ratio: 0.00%"]) /\
  (forall v, v_sloc v <= 0 ->
     issues (make_metrics v) = [lit "Low comment ratio: 0.00%"]).
Proof.
  intros Hc Hr Hs. split.
  - unfold _get_code_metrics. rewrite Hc, Hr. unfold measures.
    destruct (strategy_of _); [congruence | | | |];
      (eexists; split; [reflexivity |]); repeat split.
  - intros v Hv. rewrite issues_make_metrics.
    by apply quality_issues_no_source.
Qed.

Lemma empty_file_low_ratio_witness :
  let p := lit "src/empty.css" in
  let env := Demo.env [(p, [])] in
  let fm := Demo.file_at p (lit "code/web") in
  exists m,
    fst (_get_code_metrics env init fm) = Some m /\
    issues m = [lit "Low comment ratio: 0.00%"].
Proof.
  intros p env fm.
  destruct (empty_file_low_ratio env init fm) as [(m & Hm & _ & _ & _ & Hi) _].
  - reflexivity.
  - reflexivity.
  - vm_compute. discriminate.
  - exists m. split; assumption.
Defined.

(** ** Size of the duplicate report *)

Lemma scan_pairs_length files m ps :
  (length (scan_pairs files m ps) <= length ps)%nat.
Proof.
  induction ps as [| [i j] ps IH]; simpl; [lia |].
  destruct (matrix_at m i j), (files !! i), (files !! j); simpl; try lia.
  destruct (Qlt_bool _ _); simpl; lia.
Qed.

Lemma index_pairs_from_length n k : forall a,
  (a + k = n)%nat ->
  (2 * length (flat_map (fun i => map (fun j => (i, j)) (seq (S i) (n - S i)))
                        (seq a k)) = k * (k - 1))%nat.
Proof.
  induction k as [| k IH]; intros a H; [reflexivity |].
  cbn [seq flat_map]. rewrite length_app, length_map, length_seq.
  specialize (IH (S a) ltac:(lia)).
  replace (n - S a)%nat with k by lia. nia.
Qed.

Lemma index_pairs_length n :
  (2 * length (index_pairs n) = n * (n - 1))%nat.
Proof. unfold index_pairs. by apply index_pairs_from_length. Qed.

(** X8. For every group and whatever the vectoriser returns or raises,
    [_find_duplicates] reports at most n(n-1)/2 pairs for n files; a
    group of fewer than two files has no duplicate. *)
Theorem find_duplicates_bound (env : Env.t) (files : list FileMetadata) :
  let n := length files in
  (2 * length (_find_duplicates env files) <= n * (n - 1))%nat /\
  ((n <= 1)%nat -> _find_duplicates env files = []).
Proof.
  intros n.
  assert (H : (2 * length (_find_duplicates env files) <= n * (n - 1))%nat).
  { subst n. unfold _find_duplicates.
    destruct (read_contents env files); [cbn [length]; lia |].
    destruct (Env.tfidf_fit_transform env _) as [vectors |];
      [| cbn [length]; lia].
    pose proof (scan_pairs_length files (cosine_similarity env vectors)
                  (index_pairs (length files))).
    pose proof (index_pairs_length (length files)). lia. }
  split; [exact H |].
  intros Hn. destruct (_find_duplicates env files); [reflexivity |].
  cbn [length] in H. subst n.
  destruct (length files) as [| [| k]]; simpl in *; lia.
Qed.

(** ** The metadata record *)

(** X9. The record [_analyze_file] builds for a path carries that path
    and its category; it is binary exactly when the detected type does
    not start with "text/", a binary record has the encoding "binary",
    the encoding of a record is never empty (a text file without a
    detected encoding gets "utf-8"), and the record is stored in the file
    cache under the path while the code cache stays as it was. *)
Theorem analyze_file_record (env : Env.t) (st : Analyzer) (p : str)
    (m : FileMetadata) :
  fst (_analyze_file env st p) = Some m ->
  path m = p /\
  category m = _categorize_file env p /\
  (is_binary m = true <-> startswith (mime_type m) (lit "text/") = false) /\
  (is_binary m = true -> encoding m = lit "binary") /\
  (is_binary m = false ->
     forall pr, Env.probe env p = Some pr ->
       encoding m = match chardet_encoding pr with
                    | Some (c :: e) => c :: e
                    | _ => lit "utf-8"
                    end) /\
  encoding m <> [] /\
  file_cache (snd (_analyze_file env st p)) !! p = Some m /\
  code_cache (snd (_analyze_file env st p)) = code_cache st.
Proof.
  unfold _analyze_file. destruct (Env.probe env p) as [pr |]; [| discriminate].
  cbn [fst snd]. intros [= <-].
  cbn [path category is_binary mime_type encoding file_cache code_cache].
  split; [reflexivity |]. split; [reflexivity |].
  split; [| split; [| split; [| split; [| split;
    [apply lookup_insert_eq | reflexivity]]]]];
    destruct (startswith (magic_mime pr) (lit "text/")) eqn:E; cbn [negb];
    try (split; congruence); try congruence.
  - intros _ pr' [= <-]. reflexivity.
  - by destruct (chardet_encoding pr) as [[| c e] |].
  - vm_compute. discriminate.
Qed.

Lemma analyze_file_record_witness :
  let p := lit "proj/notes.md" in
  let env := Demo.env [(p, lit "alpha")] in
  exists m,
    fst (_analyze_file env init p) = Some m /\
    path m = p /\ category m = lit "documentation" /\ encoding m <> [].
Proof.
  intros p env.
  assert (H : { m | fst (_analyze_file env init p) = Some m }).
  { eexists. vm_compute. reflexivity. }
  destruct H as [m Hm]. exists m.
  destruct (analyze_file_record env init p m Hm) as (Hp & Hc & _ & _ & _ & He & _).
  split; [exact Hm |]. split; [exact Hp |]. split; [| exact He].
  rewrite Hc. vm_compute. reflexivity.
Defined.

(** ** Discovery *)

Lemma Dir_induction (P : Dir -> Prop) :
  (forall subdirs filenames,
     Forall (fun ns => P (snd ns)) subdirs -> P (MkDir subdirs filenames)) ->
  forall d, P d.
Proof.
  intros H. fix IH 1. intros [subdirs filenames]. apply H.
  induction subdirs as [| [n s] r IHr]; constructor; [apply IH | apply IHr].
Qed.

Lemma collect_files_unfold root subdirs filenames :
  _collect_files root (MkDir subdirs filenames) =
  (here ← collect_here root filenames;
   below ← collect_below root subdirs;
   Some (here ++ below)).
Proof. reflexivity. Qed.

Lemma collect_below_cons root name sub r :
  collect_below root ((name, sub) :: r) =
  if startswith name (lit ".") then collect_below root r
  else (a ← _collect_files (os_path_join root name) sub;
        b ← collect_below root r;
        Some (a ++ b)).
Proof. reflexivity. Qed.

Lemma collect_here_none root filenames :
  collect_here root filenames = None <->
  exists name, In (name, None) filenames /\ visible name.
Proof.
  unfold visible. induction filenames as [| [n sz] r IH]; simpl.
  - split; [discriminate | intros (? & [] & _)].
  - destruct (startswith n (lit ".")) eqn:E.
    + rewrite IH. split; intros (name & Hin & Hv); exists name.
      * auto.
      * destruct Hin as [Heq | Hin]; [congruence | auto].
    + destruct sz as [z |].
      * assert (Hiff : (rest ← collect_here root r;
                        Some (if MAX_FILE_SIZE <? z then rest
                              else joinpath root n :: rest)) = None
                       <-> collect_here root r = None)
          by (destruct (collect_here root r); simpl; split; congruence).
        rewrite Hiff, IH. split; intros (name & Hin & Hv); exists name.
        -- auto.
        -- destruct Hin as [Heq | Hin]; [congruence | auto].
      * split; [| reflexivity]. intros _. exists n. auto.
Qed.

Lemma collect_here_some root filenames l :
  collect_here root filenames = Some l ->
  forall p, In p l <->
    exists name sz, In (name, Some sz) filenames /\ visible name /\
                    sz <= MAX_FILE_SIZE /\ p = joinpath root name.
Proof.
  unfold visible. revert l. induction filenames as [| [n sz] r IH]; simpl; intros l H p.
  - injection H as <-. split; [intros [] | intros (? & ? & [] & _)].
  - destruct (startswith n (lit ".")) eqn:E.
    + rewrite (IH l H p). split; intros (name & z & Hin & Hv & Hz & Hp);
        exists name, z; repeat split; auto.
      destruct Hin as [[= -> ->] | Hin]; [congruence | auto].
    + destruct sz as [z |]; [| discriminate].
      destruct (collect_here root r) as [rest |] eqn:Er; [| discriminate].
      simpl in H. injection H as <-. specialize (IH rest eq_refl p).
      destruct (Z.ltb_spec MAX_FILE_SIZE z) as [Hbig | Hok].
      * rewrite IH. split; intros (name & z' & Hin & Hv & Hz & Hp);
          exists name, z'; repeat split; auto.
        destruct Hin as [[= -> ->] | Hin]; [lia | auto].
      * simpl. rewrite IH. split.
        -- intros [<- | (name & z' & Hin & Hv & Hz & Hp)].
           ++ exists n, z. repeat split; auto.
           ++ exists name, z'. repeat split; auto.
        -- intros (name & z' & [[= -> ->] | Hin] & Hv & Hz & Hp).
           ++ left. by rewrite Hp.
           ++ right. exists name, z'. repeat split; auto.
Qed.

Ltac conj_auto :=
  repeat match goal with |- _ /\ _ => split end;
  first [assumption | by left | by right | reflexivity
        | by constructor | by repeat constructor | by econstructor | eauto].

Lemma collect_below_spec root subdirs :
  Forall (fun ns => collect_spec (snd ns)) subdirs ->
  (forall l, collect_below root subdirs = Some l ->
     forall p, In p l <->
       exists name sub names sz,
         In (name, sub) subdirs /\ visible name /\
         has_file sub names (Some sz) /\ Forall visible names /\
         sz <= MAX_FILE_SIZE /\
         p = file_path (os_path_join root name) names) /\
  (collect_below root subdirs = None <->
     exists name sub names,
       In (name, sub) subdirs /\ visible name /\
       has_file sub names None /\ Forall visible names).
Proof.
  induction 1 as [| [n s] r Hs _ IH].
  - split.
    + intros l [= <-] p. split; [intros [] |].
      intros (? & ? & ? & ? & [] & _).
    + split; [discriminate | intros (? & ? & ? & [] & _)].
  - rewrite collect_below_cons. destruct IH as [IHs IHn].
    destruct (startswith n (lit ".")) eqn:E.
    + split.
      * intros l Hl p. rewrite (IHs l Hl p). split.
        -- intros (name & sub & names & sz & Hin & Hv & Hf & Hvs & Hz & Hp).
           exists name, sub, names, sz. conj_auto.
        -- intros (name & sub & names & sz & Hin & Hv & Hf & Hvs & Hz & Hp).
           destruct Hin as [Heq | Hin].
           ++ injection Heq as -> ->. unfold visible in Hv. congruence.
           ++ exists name, sub, names, sz. conj_auto.
      * rewrite IHn. split.
        -- intros (name & sub & names & Hin & Hv & Hf & Hvs).
           exists name, sub, names. conj_auto.
        -- intros (name & sub & names & Hin & Hv & Hf & Hvs).
           destruct Hin as [Heq | Hin].
           ++ injection Heq as -> ->. unfold visible in Hv. congruence.
           ++ exists name, sub, names. conj_auto.
    + simpl in Hs. destruct (Hs (os_path_join root n)) as [Hss Hsn].
      destruct (_collect_files (os_path_join root n) s) as [a |] eqn:Ea; simpl.
      * destruct (collect_below root r) as [b |] eqn:Eb; simpl.
        -- split.
           ++ intros l [= <-] p.
              rewrite in_app_iff, (Hss a eq_refl p), (IHs b eq_refl p).
              split.
              ** intros [(names & sz & Hf & Hv & Hz & Hp)
                        | (name & sub & names & sz & Hin & Hv & Hf & Hvs & Hz & Hp)].
                 --- exists n, s, names, sz. conj_auto.
                 --- exists name, sub, names, sz. conj_auto.
              ** intros (name & sub & names & sz & Hin & Hv & Hf & Hvs & Hz & Hp).
                 destruct Hin as [Heq | Hin].
                 --- injection Heq as -> ->. left. exists names, sz. conj_auto.
                 --- right. exists name, sub, names, sz. conj_auto.
           ++ split; [discriminate |].
              intros (name & sub & names & Hin & Hv & Hf & Hvs).
              destruct Hin as [Heq | Hin].
              ** injection Heq as -> ->.
                 destruct Hsn as [_ Hsn]. discriminate Hsn. eauto.
              ** destruct IHn as [_ IHn]. discriminate IHn.
                 exists name, sub, names. conj_auto.
        -- split; [discriminate |]. split; [| reflexivity]. intros _.
           destruct IHn as [IHn _].
           destruct (IHn eq_refl) as (name & sub & names & Hin & Hv & Hf & Hvs).
           exists name, sub, names. conj_auto.
      * split; [discriminate |]. split; [| reflexivity]. intros _.
        destruct Hsn as [Hsn _]. destruct (Hsn eq_refl) as (names & Hf & Hvs).
        exists n, s, names. conj_auto.
Qed.

Lemma file_path_below d names sz root name :
  has_file d names sz ->
  file_path root (name :: names) = file_path (os_path_join root name) names.
Proof. by destruct 1. Qed.

Lemma collect_spec_all d : collect_spec d.
Proof.
  induction d as [subdirs filenames IH] using Dir_induction.
  intros root. rewrite collect_files_unfold.
  destruct (collect_below_spec root subdirs IH) as [Hbs Hbn].
  pose proof (collect_here_some root filenames) as Hhs.
  pose proof (collect_here_none root filenames) as Hhn.
  destruct (collect_here root filenames) as [here |] eqn:Eh; simpl.
  - destruct (collect_below root subdirs) as [below |] eqn:Eb; simpl.
    + split.
      * intros l [= <-] p.
        rewrite in_app_iff, (Hhs here eq_refl p), (Hbs below eq_refl p).
        split.
        -- intros [(name & sz & Hin & Hv & Hz & Hp)
                  | (name & sub & names & sz & Hin & Hv & Hf & Hvs & Hz & Hp)].
           ++ exists [name], sz. conj_auto.
           ++ exists (name :: names), sz.
              rewrite (file_path_below _ _ _ root name Hf). conj_auto.
        -- intros (names & sz & Hf & Hvs & Hz & Hp).
           inversion Hf as [? ? name ? Hin | ? ? name sub names' ? Hin Hsub]; subst.
           ++ left. exists name, sz. inversion Hvs; subst. conj_auto.
           ++ right. inversion Hvs; subst.
              rewrite (file_path_below _ _ _ root name Hsub).
              exists name, sub, names', sz. conj_auto.
      * split; [discriminate |]. intros (names & Hf & Hvs).
        inversion Hf as [? ? name ? Hin | ? ? name sub names' ? Hin Hsub]; subst;
          inversion Hvs; subst.
        -- destruct Hhn as [_ Hhn]. discriminate Hhn. eauto.
        -- destruct Hbn as [_ Hbn]. discriminate Hbn.
           exists name, sub, names'. conj_auto.
    + split; [discriminate |]. split; [| reflexivity]. intros _.
      destruct Hbn as [Hbn _].
      destruct (Hbn eq_refl) as (name & sub & names & Hin & Hv & Hf & Hvs).
      exists (name :: names). conj_auto.
  - split; [discriminate |]. split; [| reflexivity]. intros _.
    destruct Hhn as [Hhn _]. destruct (Hhn eq_refl) as (name & Hin & Hv).
    exists [name]. conj_auto.
Qed.

(** The paths as [os.path.join] and [pathlib] build them: a directory
    keeps the root as it was given, a file path is normalised. *)
Example joinpath_examples :
  joinpath (lit "proj") (lit "a.js") = lit "proj/a.js" /\
  joinpath (lit ".") (lit "a.js") = lit "a.js" /\
  joinpath (lit "/") (lit "a.js") = lit "/a.js" /\
  joinpath (lit "proj/") (lit "a.js") = lit "proj/a.js" /\
  os_path_join (lit ".") (lit "sub") = lit "./sub" /\
  os_path_join (lit "/") (lit "sub") = lit "/sub" /\
  os_path_join (lit "proj/") (lit "sub") = lit "proj/sub" /\
  joinpath (lit "./sub") (lit "b.py") = lit "sub/b.py" /\
  file_path (lit ".") [lit "sub"; lit "b.py"] = lit "sub/b.py" /\
  file_path (lit "/") [lit "sub"; lit "b.py"] = lit "/sub/b.py" /\
  file_path (lit "proj") [lit "src"; lit "lib"; lit "a.py"] =
    lit "proj/src/lib/a.py".
Proof. vm_compute. repeat split; reflexivity. Qed.

(** X10. When [_collect_files] returns, the paths it returns are exactly
    the files reached from the root through names that do not start with
    a dot (the file's own name included) and whose size is at most
    [MAX_FILE_SIZE]: nothing below a hidden directory, no hidden file and
    no larger file is returned, and a file of exactly the maximal size
    is.  The path of a file is [Path(dir) / name] as a string, where
    [dir] is the root joined with the directory names by [os.path.join]:
    under the root "." the file a.js is "a.js" and b.py in sub is
    "sub/b.py". *)
Theorem collect_files_paths (root : str) (tree : Dir) (discovered : list str) :
  _collect_files root tree = Some discovered ->
  forall p,
    In p discovered <->
    exists names sz,
      has_file tree names (Some sz) /\ Forall visible names /\
      sz <= MAX_FILE_SIZE /\ p = file_path root names.
Proof. intros H. by apply (collect_spec_all tree root). Qed.

Lemma collect_files_paths_witness :
  let tree :=
    MkDir [(lit "src", MkDir [] [(lit "a.py", Some MAX_FILE_SIZE)]);
           (lit ".git", MkDir [] [(lit "config", Some 10)])]
          [(lit ".env", Some 5); (lit "big.bin", Some (MAX_FILE_SIZE + 1));
           (lit "a.js", Some 7)] in
  _collect_files (lit "proj") tree = Some [lit "proj/a.js"; lit "proj/src/a.py"] /\
  _collect_files (lit ".") tree = Some [lit "a.js"; lit "src/a.py"] /\
  _collect_files (lit "/") tree = Some [lit "/a.js"; lit "/src/a.py"] /\
  In (lit "src/a.py") [lit "a.js"; lit "src/a.py"].
Proof.
  intros tree. repeat (split; [vm_compute; reflexivity |]).
  apply (collect_files_paths (lit ".") tree [lit "a.js"; lit "src/a.py"]);
    [vm_compute; reflexivity |].
  exists [lit "src"; lit "a.py"], MAX_FILE_SIZE.
  split; [| split; [| split]].
  - eapply has_file_below; [by left |]. apply has_file_here. by left.
  - repeat constructor.
  - lia.
  - vm_compute. reflexivity.
Defined.

(** X11. [_collect_files] raises exactly when [stat] fails for some file
    that is reached through names not starting with a dot: a failing
    [stat] on a hidden file or below a hidden directory does no harm, and
    one on any other file ends the discovery (and with it the run). *)
Theorem collect_files_raises_iff (root : str) (tree : Dir) :
  _collect_files root tree = None <->
  exists names, has_file tree names None /\ Forall visible names.
Proof. by apply (collect_spec_all tree root). Qed.

(** ** Language groups *)

Lemma dict_get_setdefault {A : Type} (k k' : str) (x : A) (d : dict (list A)) :
  dict_get k (setdefault_append k' x d) =
  if str_eqb k' k then Some (default [] (dict_get k d) ++ [x])
  else dict_get k d.
Proof.
  unfold str_eqb.
  induction d as [| [k0 xs] d IH]; simpl; unfold str_eqb.
  - reflexivity.
  - destruct (bool_decide_reflect (k0 = k')) as [-> | Hne]; simpl; unfold str_eqb.
    + by destruct (bool_decide_reflect (k' = k)).
    + rewrite IH.
      destruct (bool_decide_reflect (k0 = k)) as [-> | Hne2]; [| reflexivity].
      destruct (bool_decide_reflect (k' = k)) as [-> | Hne3];
        [congruence | reflexivity].
Qed.

Lemma setdefault_keys {A : Type} (k : str) (x : A) (d : dict (list A)) :
  map fst (setdefault_append k x d) =
  if mem k (map fst d) then map fst d else map fst d ++ [k].
Proof.
  unfold mem. induction d as [| [k0 v0] d IH]; simpl; [reflexivity |].
  unfold str_eqb in *.
  destruct (decide (k0 = k)) as [-> | Hne].
  - rewrite !bool_decide_eq_true_2 by reflexivity. reflexivity.
  - rewrite (bool_decide_eq_false_2 (k0 = k)) by assumption.
    rewrite (bool_decide_eq_false_2 (k = k0)) by congruence.
    simpl. rewrite IH.
    by destruct (existsb _ (map fst d)).
Qed.

Lemma setdefault_nodup {A : Type} (k : str) (x : A) (d : dict (list A)) :
  NoDup (map fst d) -> NoDup (map fst (setdefault_append k x d)).
Proof.
  intros H. rewrite setdefault_keys.
  destruct (mem k (map fst d)) eqn:E; [assumption |].
  apply NoDup_app. split; [assumption |]. split; [| apply NoDup_singleton].
  intros y Hy Hk. apply list_elem_of_singleton in Hk. subst y.
  unfold mem in E. apply not_true_iff_false in E. apply E.
  apply existsb_exists. exists k. split; [by apply list_elem_of_In |].
  unfold str_eqb. by apply bool_decide_eq_true.
Qed.

Lemma group_by_language_lookup code_files : forall d groups lang,
  group_by_language code_files d = Some groups ->
  dict_get lang groups =
  match dict_get lang d, List.filter (has_language lang) code_files with
  | None, [] => None
  | o, g => Some (default [] o ++ g)
  end.
Proof.
  induction code_files as [| f r IH]; intros d groups lang H; simpl in H.
  - injection H as <-. simpl.
    destruct (dict_get lang d); simpl; by rewrite ?app_nil_r.
  - destruct (language_of f) as [l |] eqn:El; [| discriminate]. simpl in H.
    rewrite (IH _ _ lang H), dict_get_setdefault.
    assert (Hh : has_language lang f = bool_decide (l = lang)).
    { unfold has_language. rewrite El. apply bool_decide_ext.
      split; congruence. }
    cbn [List.filter]. rewrite Hh. unfold str_eqb.
    destruct (bool_decide_reflect (l = lang)) as [-> | Hne].
    + destruct (dict_get lang d) as [xs |]; cbn [default]; unfold id.
      * by rewrite <- app_assoc.
      * reflexivity.
    + reflexivity.
Qed.

Lemma group_by_language_nodup code_files : forall d groups,
  group_by_language code_files d = Some groups ->
  NoDup (map fst d) -> NoDup (map fst groups).
Proof.
  induction code_files as [| f r IH]; intros d groups H Hd; simpl in H.
  - by injection H as <-.
  - destruct (language_of f) as [l |]; [| discriminate]. simpl in H.
    eapply IH; [exact H |]. by apply setdefault_nodup.
Qed.

Lemma group_by_language_partition_aux code_files groups :
  group_by_language code_files [] = Some groups ->
  NoDup (map fst groups) /\
  forall lang,
    dict_get lang groups =
    match List.filter (has_language lang) code_files with
    | [] => None
    | f :: g => Some (f :: g)
    end.
Proof.
  intros H. split.
  - eapply group_by_language_nodup; [exact H | constructor].
  - intros lang. rewrite (group_by_language_lookup _ _ _ lang H). simpl.
    by destruct (List.filter (has_language lang) code_files).
Qed.

(** X12. When the grouping of the code files returns, no language occurs
    twice among the groups, and for every language the group holds
    exactly the code files of that language in the order of discovery; a
    language without file has no group. *)
Theorem group_by_language_partition (code_files : list FileMetadata)
    (groups : dict (list FileMetadata)) :
  group_by_language code_files [] = Some groups ->
  NoDup (map fst groups) /\
  forall lang,
    dict_get lang groups =
    match List.filter (has_language lang) code_files with
    | [] => None
    | f :: g => Some (f :: g)
    end.
Proof. apply group_by_language_partition_aux. Qed.

Lemma group_by_language_partition_witness :
  let a := Demo.file_at (lit "proj/a.py") (lit "code/python") in
  let b := Demo.file_at (lit "proj/b.js") (lit "code/javascript") in
  let c := Demo.file_at (lit "proj/c.py") (lit "code/python") in
  exists groups,
    group_by_language [a; b; c] [] = Some groups /\
    dict_get (lit "python") groups = Some [a; c] /\
    dict_get (lit "go") groups = None.
Proof.
  intros a b c.
  assert (H : { groups | group_by_language [a; b; c] [] = Some groups }).
  { eexists. vm_compute. reflexivity. }
  destruct H as [groups Hg]. exists groups. split; [exact Hg |].
  destruct (group_by_language_partition [a; b; c] groups Hg) as [_ Hl].
  split; rewrite Hl; vm_compute; reflexivity.
Defined.

Lemma analyze_group_files env st fs e :
  fst (analyze_group env st fs) = Some e -> Lang.files e = Z.of_nat (length fs).
Proof.
  unfold analyze_group.
  destruct (map_code_metrics env st fs) as [fm st1]. simpl. intros H.
  by destruct (language_entry_means _ _ _ _ H) as [Hf _].
Qed.

Lemma analyze_groups_entry env groups lang e : forall st metrics,
  dict_get lang (fst (analyze_groups env st groups metrics)) = Some e ->
  dict_get lang metrics = Some e \/
  exists fs, In (lang, fs) groups /\ Lang.files e = Z.of_nat (length fs).
Proof.
  induction groups as [| [l fs] groups IH]; intros st metrics H; simpl in H.
  - by left.
  - pose proof (analyze_group_files env st fs) as Hf.
    destruct (analyze_group env st fs) as [[entry |] st1]; simpl in Hf.
    + destruct (IH _ _ H) as [Hm | (fs' & Hin & Hlen)].
      * rewrite dict_get_set in Hm. unfold str_eqb in Hm.
        destruct (bool_decide_reflect (l = lang)) as [-> | Hne].
        -- injection Hm as <-. right. exists fs. split; [by left | by apply Hf].
        -- by left.
      * right. exists fs'. split; [by right | exact Hlen].
    + destruct (IH _ _ H) as [Hm | (fs' & Hin & Hlen)]; [by left |].
      right. exists fs'. split; [by right | exact Hlen].
Qed.

(** X13. Every language entry of the metrics counts all code files of its
    language, those without a record included, and a language appears in
    the metrics only if at least one code file carries it. *)
Theorem language_entry_counts_files (env : Env.t) (st st' : Analyzer)
    (code_files : list FileMetadata) (code_metrics : dict Lang.t) :
  _analyze_code_files env st code_files = Some (code_metrics, st') ->
  forall lang e,
    dict_get lang code_metrics = Some e ->
    Lang.files e =
      Z.of_nat (length (List.filter (has_language lang) code_files)) /\
    0 < Lang.files e.
Proof.
  unfold _analyze_code_files. intros H lang e He.
  destruct (group_by_language code_files []) as [groups |] eqn:Eg;
    [| discriminate].
  simpl in H. injection H as Hm.
  assert (Hfst : code_metrics = fst (analyze_groups env st groups []))
    by (by rewrite Hm).
  rewrite Hfst in He.
  destruct (analyze_groups_entry _ _ _ _ _ _ He) as [Hnil | (fs & Hin & Hlen)];
    [discriminate |].
  destruct (group_by_language_partition_aux code_files groups Eg) as [Hnd Hl].
  pose proof (dict_get_in_nodup _ _ _ Hnd Hin) as Hget.
  rewrite Hl in Hget.
  destruct (List.filter (has_language lang) code_files) as [| f g];
    [discriminate |].
  injection Hget as <-. rewrite Hlen. simpl. split; [reflexivity | lia].
Qed.

Lemma language_entry_counts_files_witness :
  let env := Demo.env [(lit "proj/a.js", Demo.ten_lines_one_comment)] in
  let a := Demo.file_at (lit "proj/a.js") (lit "code/javascript") in
  let gone := Demo.file_at (lit "proj/gone.js") (lit "code/javascript") in
  exists code_metrics st' e,
    _analyze_code_files env init [a; gone] = Some (code_metrics, st') /\
    dict_get (lit "javascript") code_metrics = Some e /\
    Lang.files e = 2.
Proof.
  intros env a gone.
  assert (H : { r : dict Lang.t * Analyzer * Lang.t |
                _analyze_code_files env init [a; gone] = Some (fst r) /\
                dict_get (lit "javascript") (fst (fst r)) = Some (snd r) }).
  { eexists (_, _, _). split; vm_compute; reflexivity. }
  destruct H as [[[cm st'] e] [Hrun Hget]]. simpl in Hrun, Hget.
  exists cm, st', e. split; [exact Hrun |]. split; [exact Hget |].
  destruct (language_entry_counts_files env init st' [a; gone] cm Hrun
              (lit "javascript") e Hget) as [Hfiles _].
  rewrite Hfiles. vm_compute. reflexivity.
Defined.

(** ** The classifiers of config.py *)

Lemma startswith_code lang :
  startswith (lit "code/" ++ lang) (lit "code/") = true.
Proof. simpl. by destruct lang. Qed.

(** X14. The classifier of config.py and the one of the analyzer agree on
    code: either both put a path under "code/", and then under the same
    language, or neither does. *)
Theorem classifiers_agree_on_code (env : Env.t) (filepath : str) :
  (startswith (get_file_category env filepath) (lit "code/") = true <->
   startswith (_categorize_file env filepath) (lit "code/") = true) /\
  (startswith (_categorize_file env filepath) (lit "code/") = true ->
   get_file_category env filepath = _categorize_file env filepath).
Proof.
  unfold get_file_category, _categorize_file, code_language.
  destruct (List.find _ Config.SUPPORTED_CODE_EXTENSIONS) as [[lang exts] |].
  - cbn [fmap option_fmap option_map fst]. rewrite startswith_code.
    split; [split; intros _; reflexivity | reflexivity].
  - cbn [fmap option_fmap option_map].
    assert (Ha : startswith
              (if is_doc (Env.lower env (path_suffix filepath))
               then lit "documentation"
               else if is_config (Env.lower env (path_name filepath))
                                 (Env.lower env (path_suffix filepath))
                    then lit "configuration"
                    else if is_test (Env.lower env (path_name filepath))
                         then lit "test" else lit "other")
              (lit "code/") = false).
    { destruct (is_doc _); [reflexivity |].
      destruct (is_config _ _); [reflexivity |].
      destruct (is_test _); reflexivity. }
    assert (Hb : startswith
              match List.find (fun de => mem (Env.lower env (path_suffix filepath)) (snd de))
                              SUPPORTED_DOC_EXTENSIONS with
              | Some (doc_type, _) => lit "doc/" ++ doc_type
              | None =>
                  match List.find
                          (fun ce => mem (Env.lower env (path_suffix filepath)) (snd ce)
                                     || mem (Env.lower env (path_name filepath)) (snd ce))
                          SUPPORTED_CONFIG_EXTENSIONS with
                  | Some (config_type, _) => lit "config/" ++ config_type
                  | None => lit "unknown"
                  end
              end (lit "code/") = false).
    { destruct (List.find _ SUPPORTED_DOC_EXTENSIONS) as [[t ?] |]; [reflexivity |].
      destruct (List.find _ SUPPORTED_CONFIG_EXTENSIONS) as [[t ?] |]; reflexivity. }
    rewrite Ha, Hb. split; [split |]; discriminate.
Qed.

(** X15. [get_project_type] answers "unknown" exactly when the directory
    lists no marker of any kind; otherwise it answers the first kind, in
    the order of the table, one of whose markers is listed, so a
    directory with markers of several kinds gets the earliest of them. *)
Theorem project_type_first_marker (listing : list str) :
  (get_project_type listing = lit "unknown" <->
   Forall (fun lm => has_marker listing (snd lm) = false) PROJECT_MARKERS) /\
  (forall lang, get_project_type listing = lang -> lang <> lit "unknown" ->
     exists before markers after,
       PROJECT_MARKERS = before ++ (lang, markers) :: after /\
       has_marker listing markers = true /\
       Forall (fun lm => has_marker listing (snd lm) = false) before).
Proof.
  unfold get_project_type.
  destruct (List.find _ PROJECT_MARKERS) as [[lang markers] |] eqn:E.
  - destruct (find_first _ _ _ E) as (l1 & l2 & Hl & Hx & Hl1).
    split.
    + split.
      * intros ->. exfalso.
        assert (Hin : In (lit "unknown") (map fst PROJECT_MARKERS)).
        { rewrite Hl, map_app. apply in_or_app. right. by left. }
        vm_compute in Hin. intuition discriminate.
      * intros Hall. exfalso. rewrite Hl in Hall.
        apply List.Forall_app in Hall as [_ Hall].
        inversion Hall as [| ? ? Hf _]; subst. simpl in Hf, Hx. congruence.
    + intros l <- _. exists l1, markers, l2. auto.
  - split.
    + split; [| reflexivity]. intros _.
      apply List.Forall_forall. intros lm Hin.
      by apply (List.find_none _ _ E).
    + intros lang <- Hne. congruence.
Qed.

(** ** The [/api/analyze] response *)

Lemma analyze_project_metrics_nodup env st root tree r :
  fst (analyze_project env st root tree) = Some r ->
  NoDup (map fst (metrics r)).
Proof.
  unfold analyze_project.
  destruct (_collect_files root tree) as [discovered |]; [| discriminate].
  destruct (map_analyze_file env st discovered) as [fmd st1].
  destruct (code_files_of fmd) as [code |]; [| discriminate].
  unfold _analyze_code_files.
  destruct (group_by_language code []) as [groups |]; [| discriminate].
  simpl. pose proof (analyze_groups_nodup env groups st1 [] (NoDup_nil_2)) as H.
  destruct (analyze_groups env st1 groups []) as [cm st2]. simpl in *.
  by intros [= <-].
Qed.

Lemma analyze_project_summary env st root tree r :
  fst (analyze_project env st root tree) = Some r ->
  summary r = _generate_project_summary (files r) (metrics r).
Proof.
  unfold analyze_project.
  destruct (_collect_files root tree) as [discovered |]; [| discriminate].
  destruct (map_analyze_file env st discovered) as [fmd st1].
  destruct (code_files_of fmd) as [code |]; [| discriminate].
  destruct (_analyze_code_files env st1 code) as [[cm st2] |]; [| discriminate].
  simpl. by intros [= <-].
Qed.

(** X16. For the result of every run, the response of [/api/analyze] is
    built without error; its [total_files] is always the default 0 and
    its [languages] the default empty list, because the result has these
    keys only inside ['summary']; the code statistics it recomputes from
    the metrics are those of the summary. *)
Theorem api_response_of_run (env : Env.t) (st : Analyzer) (root : str)
    (tree : Dir) (r : Report) (timestamp : str) :
  fst (analyze_project env st root tree) = Some r ->
  exists a,
    format_results (result_dict r timestamp) = Some a /\
    api_total_files a = inr 0 /\
    api_languages a = inr [] /\
    api_total_loc a = Stats.total_loc (Summary.code_stats (summary r)) /\
    api_total_issues a = Stats.total_issues (Summary.code_stats (summary r)) /\
    api_avg_complexity a =
      Stats.avg_complexity (Summary.code_stats (summary r)) /\
    api_avg_maintainability a =
      Stats.avg_maintainability (Summary.code_stats (summary r)).
Proof.
  intros Hr.
  pose proof (analyze_project_metrics_nodup _ _ _ _ _ Hr) as Hnd.
  rewrite (analyze_project_summary _ _ _ _ _ Hr).
  destruct (summary_means (files r) (metrics r) Hnd) as (H1 & H2 & H3 & H4).
  eexists. split; [reflexivity |].
  cbn [api_total_files api_languages api_total_loc api_total_issues
       api_avg_complexity api_avg_maintainability].
  split; [reflexivity |]. split; [reflexivity |].
  rewrite H1, H2, H3, H4. repeat split.
Qed.

Lemma api_response_of_run_witness :
  let env := Demo.env [(lit "proj/a.js", Demo.ten_lines_one_comment);
                       (lit "proj/notes.md", lit "alpha")] in
  let tree := MkDir [] [(lit "a.js", Some 120); (lit "notes.md", Some 5)] in
  exists r a,
    fst (analyze_project env init (lit "proj") tree) = Some r /\
    Summary.total_files (summary r) = 2 /\
    format_results (result_dict r []) = Some a /\
    api_total_files a = inr 0.
Proof.
  intros env tree.
  assert (H : { r | fst (analyze_project env init (lit "proj") tree) = Some r
                    /\ Summary.total_files (summary r) = 2 }).
  { eexists. split; vm_compute; reflexivity. }
  destruct H as [r [Hr Ht]].
  destruct (api_response_of_run env init (lit "proj") tree r [] Hr)
    as (a & Ha & Hfiles & _).
  exists r, a. auto.
Defined.
